(** * Pipeline broker: registry, router and callback table

    A shallow embedding of [TerminalManager] from [pipeline.py]: the
    registry [self.terminals], the callback table
    [self.completion_callbacks], the five message handlers, the dispatcher
    [_process_message] and the session loop [_handle_client].

    Modelling choices.
    - A Python [dict] is an insertion-ordered association list with string
      keys ([PyDict]); [list(d.keys())] is the list of its keys in order.
    - A socket object is a connection number.  [socket.send] either
      delivers or raises; it always raises on a socket the broker has
      already closed, and otherwise the environment decides.  Every
      attempted write is recorded as an [event].
    - Handlers run in a small state-and-exception monad over the broker
      state; an exception keeps the mutations made before it, as in Python.
    - The fields [name], [target], [command], [callback] and [terminal] of
      a message are strings in the protocol; the model reads them as
      [option string], [None] standing for a missing field or a JSON null.
    - One handler runs at a time: the threads of the source are modelled as
      an interleaving of whole [_process_message] calls. *)

From Stdlib Require Import String Ascii List ZArith Bool Lia.
Import ListNotations.
Open Scope string_scope.
Open Scope list_scope.
Set Warnings "-register-all".

(** ** Python dictionaries with string keys *)

Module PyDict.

Definition dict (V : Type) := list (string * V).

Section Ops.
Context {V : Type}.

Definition empty : dict V := [].

(** [d.get(k)] *)
Fixpoint get (k : string) (d : dict V) : option V :=
  match d with
  | [] => None
  | (k', v) :: d' => if String.eqb k k' then Some v else get k d'
  end.

(** [k in d] *)
Definition contains (k : string) (d : dict V) : bool :=
  match get k d with Some _ => true | None => false end.

(** [d[k] = v]: an existing key keeps its position, a new key goes last. *)
Fixpoint set (k : string) (v : V) (d : dict V) : dict V :=
  match d with
  | [] => [(k, v)]
  | (k', v') :: d' =>
      if String.eqb k k' then (k', v) :: d' else (k', v') :: set k v d'
  end.

(** [del d[k]] on a key that is present. *)
Definition del (k : string) (d : dict V) : dict V :=
  filter (fun kv => negb (String.eqb k (fst kv))) d.

(** [list(d.keys())] *)
Definition keys (d : dict V) : list string := map fst d.

End Ops.

End PyDict.

(** ** Data *)

(** Payloads carried through unchanged ([content], [result], [pid], [cwd]). *)
Inductive json :=
| JNull
| JBool (b : bool)
| JInt (z : Z)
| JStr (s : string)
| JList (l : list json)
| JDict (l : list (string * json)).

Definition conn := nat.

(** A value of [self.terminals]. *)
Record terminal_entry := {
  socket : conn;
  pid : json;
  cwd : json
}.

(** An incoming message, already decoded by [json.loads]. *)
Record message := {
  m_type : option string;
  m_name : option string;
  m_target : option string;
  m_command : option string;
  m_callback : option string;
  m_terminal : option string;
  m_content : json;
  m_result : json;
  m_pid : json;
  m_cwd : option json
}.

(** The messages the broker writes. *)
Inductive out_msg :=
| Registered (name : string)
| Message (content : json)
| Execute (command callback : option string)
| Callback (from_terminal command : option string) (result : json)
| TerminalList (terminals : list string).

(** One call of [socket.send]: where, what, and whether it went through. *)
Record event := {
  ev_socket : conn;
  ev_msg : out_msg;
  ev_delivered : bool
}.

Record broker := {
  terminals : PyDict.dict terminal_entry;
  completion_callbacks : PyDict.dict string;
  closed : list conn
}.

(** [TerminalManager.__init__] *)
Definition init : broker :=
  {| terminals := PyDict.empty;
     completion_callbacks := PyDict.empty;
     closed := [] |}.

(** What the broker does not control. *)
Record environment := {
  peer_ok : conn -> bool;   (* does a write to this open socket succeed *)
  os_getcwd : string        (* [os.getcwd()] *)
}.

(** ** The handler monad *)

Inductive exn := OSError | KeyError.

Inductive result (A : Type) :=
| Ok (a : A)
| Raised (e : exn).
Arguments Ok {A} a.
Arguments Raised {A} e.

Definition M (A : Type) := broker -> result A * broker * list event.

Definition ret {A} (a : A) : M A := fun b => (Ok a, b, []).

Definition bind {A B} (c : M A) (f : A -> M B) : M B :=
  fun b =>
    match c b with
    | (Ok a, b', evs) =>
        match f a b' with
        | (r, b'', evs') => (r, b'', evs ++ evs')
        end
    | (Raised e, b', evs) => (Raised e, b', evs)
    end.

Notation "x <- c1 ;; c2" := (bind c1 (fun x => c2))
  (at level 61, c1 at next level, right associativity).
Notation "c1 ;; c2" := (bind c1 (fun _ => c2))
  (at level 61, right associativity).

(** [try: body except: handler] *)
Definition try_except (body handler : M unit) : M unit :=
  fun b =>
    match body b with
    | (Ok a, b', evs) => (Ok a, b', evs)
    | (Raised _, b', evs) =>
        match handler b' with
        | (r, b'', evs') => (r, b'', evs ++ evs')
        end
    end.

Definition get_terminals : M (PyDict.dict terminal_entry) :=
  fun b => (Ok (terminals b), b, []).

Definition get_callbacks : M (PyDict.dict string) :=
  fun b => (Ok (completion_callbacks b), b, []).

Definition with_terminals (t : PyDict.dict terminal_entry) (b : broker) :=
  {| terminals := t;
     completion_callbacks := completion_callbacks b;
     closed := closed b |}.

Definition with_callbacks (cb : PyDict.dict string) (b : broker) :=
  {| terminals := terminals b;
     completion_callbacks := cb;
     closed := closed b |}.

(** [self.terminals[k] = v] *)
Definition set_terminal (k : string) (v : terminal_entry) : M unit :=
  fun b => (Ok tt, with_terminals (PyDict.set k v (terminals b)) b, []).

(** [del self.terminals[k]] *)
Definition del_terminal (k : string) : M unit :=
  fun b =>
    if PyDict.contains k (terminals b)
    then (Ok tt, with_terminals (PyDict.del k (terminals b)) b, [])
    else (Raised KeyError, b, []).

(** [self.completion_callbacks[k] = v] *)
Definition set_callback (k v : string) : M unit :=
  fun b =>
    (Ok tt, with_callbacks (PyDict.set k v (completion_callbacks b)) b, []).

(** [del self.completion_callbacks[k]] *)
Definition del_callback (k : string) : M unit :=
  fun b =>
    if PyDict.contains k (completion_callbacks b)
    then (Ok tt, with_callbacks (PyDict.del k (completion_callbacks b)) b, [])
    else (Raised KeyError, b, []).

Definition is_closed (s : conn) (b : broker) : bool :=
  existsb (Nat.eqb s) (closed b).

(** Truth value of a string-or-None. *)
Definition truthy (o : option string) : bool :=
  match o with
  | Some s => negb (String.eqb s "")
  | None => false
  end.

(** [str(x)] as an f-string renders it. *)
Definition py_str (o : option string) : string :=
  match o with
  | Some s => s
  | None => "None"
  end.

(** The f-string [f"{target}:{command}"]. *)
Definition callback_key (target command : option string) : string :=
  (py_str target ++ ":" ++ py_str command)%string.

Section Handlers.
Variable env : environment.

(** [sock.send(json.dumps(msg).encode())] *)
Definition sock_send (s : conn) (msg : out_msg) : M unit :=
  fun b =>
    if negb (is_closed s b) && peer_ok env s
    then (Ok tt, b, [{| ev_socket := s; ev_msg := msg; ev_delivered := true |}])
    else (Raised OSError, b,
          [{| ev_socket := s; ev_msg := msg; ev_delivered := false |}]).

Definition _register_terminal (message : message) (client_socket : conn)
  : M unit :=
  let term_name := m_name message in
  match term_name with
  | Some name =>
      if truthy term_name then
        set_terminal name
          {| socket := client_socket;
             pid := m_pid message;
             cwd := match m_cwd message with
                    | Some d => d
                    | None => JStr (os_getcwd env)
                    end |} ;;
        sock_send client_socket (Registered name)
      else ret tt
  | None => ret tt
  end.

Definition _send_to_terminal (message : message) : M unit :=
  let target := m_target message in
  let content := m_content message in
  ts <- get_terminals ;;
  match target with
  | Some t =>
      match PyDict.get t ts with
      | Some entry =>
          let target_socket := socket entry in
          let msg := Message content in
          try_except (sock_send target_socket msg) (del_terminal t)
      | None => ret tt
      end
  | None => ret tt
  end.

Definition _execute_command (message : message) : M unit :=
  let target := m_target message in
  let command := m_command message in
  let callback_terminal := m_callback message in
  ts <- get_terminals ;;
  match target with
  | Some t =>
      match PyDict.get t ts with
      | Some entry =>
          let target_socket := socket entry in
          let msg := Execute command callback_terminal in
          (match callback_terminal with
           | Some cb =>
               if truthy callback_terminal
               then set_callback (callback_key target command) cb
               else ret tt
           | None => ret tt
           end) ;;
          try_except (sock_send target_socket msg) (del_terminal t)
      | None => ret tt
      end
  | None => ret tt
  end.

Definition _handle_completion (message : message) : M unit :=
  let terminal := m_terminal message in
  let command := m_command message in
  let result := m_result message in
  let callback_key := callback_key terminal command in
  cbs <- get_callbacks ;;
  match PyDict.get callback_key cbs with
  | Some callback_terminal =>
      ts <- get_terminals ;;
      (match PyDict.get callback_terminal ts with
       | Some entry =>
           let callback_socket := socket entry in
           let msg := Callback terminal command result in
           try_except (sock_send callback_socket msg) (ret tt)
       | None => ret tt
       end) ;;
      del_callback callback_key
  | None => ret tt
  end.

Definition _list_terminals (client_socket : conn) : M unit :=
  ts <- get_terminals ;;
  let terminal_list := PyDict.keys ts in
  sock_send client_socket (TerminalList terminal_list).

Definition _process_message (message : message) (client_socket : conn)
  : M unit :=
  match m_type message with
  | Some msg_type =>
      if String.eqb msg_type "register" then
        _register_terminal message client_socket
      else if String.eqb msg_type "send" then
        _send_to_terminal message
      else if String.eqb msg_type "execute" then
        _execute_command message
      else if String.eqb msg_type "complete" then
        _handle_completion message
      else if String.eqb msg_type "list" then
        _list_terminals client_socket
      else ret tt
  | None => ret tt
  end.

End Handlers.

(** ** Sessions *)

(** What one [client_socket.recv(4096)] and the decoding after it give. *)
Inductive recv_result :=
| Data (m : message)     (* a JSON object *)
| Undecodable            (* [json.loads] raises *)
| PeerClosed             (* [recv] returns no data *)
| RecvError.             (* [recv] raises *)

(** [client_socket.close()] in the [finally] clause. *)
Definition close_socket (c : conn) (b : broker) : broker :=
  {| terminals := terminals b;
     completion_callbacks := completion_callbacks b;
     closed := c :: closed b |}.

(** One turn of the loop of [_handle_client] for the session on [c].  A
    session that has ended reads nothing further. *)
Definition _handle_client (env : environment) (c : conn) (r : recv_result)
    (b : broker) : broker * list event :=
  if is_closed c b then (b, [])
  else
    match r with
    | Data m =>
        match _process_message env m c b with
        | (Ok _, b', evs) => (b', evs)
        | (Raised _, b', evs) => (close_socket c b', evs)
        end
    | Undecodable | PeerClosed | RecvError => (close_socket c b, [])
    end.

(** An interleaving of the sessions: each item is one turn of one session. *)
Definition turn := (environment * conn * recv_result)%type.

Fixpoint run (ts : list turn) (b : broker) : broker * list event :=
  match ts with
  | [] => (b, [])
  | (env, c, r) :: ts' =>
      let (b', evs) := _handle_client env c r b in
      let (b'', evs') := run ts' b' in
      (b'', evs ++ evs')
  end.

Inductive reachable : broker -> Prop :=
| reach_init : reachable init
| reach_turn env c r b :
    reachable b -> reachable (fst (_handle_client env c r b)).

(** ** The messages a terminal sends

    As built by [PipelineTerminal]: [connect], [send_to_terminal],
    [execute_in_terminal], [_execute_received_command] and
    [list_terminals]. *)

Definition blank_message : message :=
  {| m_type := None; m_name := None; m_target := None; m_command := None;
     m_callback := None; m_terminal := None; m_content := JNull;
     m_result := JNull; m_pid := JNull; m_cwd := None |}.

Definition register_msg (name : string) (pid : Z) (cwd : string) : message :=
  {| m_type := Some "register"; m_name := Some name; m_target := None;
     m_command := None; m_callback := None; m_terminal := None;
     m_content := JNull; m_result := JNull; m_pid := JInt pid;
     m_cwd := Some (JStr cwd) |}.

Definition send_msg (target : string) (content : json) : message :=
  {| m_type := Some "send"; m_name := None; m_target := Some target;
     m_command := None; m_callback := None; m_terminal := None;
     m_content := content; m_result := JNull; m_pid := JNull;
     m_cwd := None |}.

Definition execute_msg (target command : string) (callback : option string)
  : message :=
  {| m_type := Some "execute"; m_name := None; m_target := Some target;
     m_command := Some command; m_callback := callback; m_terminal := None;
     m_content := JNull; m_result := JNull; m_pid := JNull; m_cwd := None |}.

Definition completion_msg (name command : string) (result : json) : message :=
  {| m_type := Some "complete"; m_name := None; m_target := None;
     m_command := Some command; m_callback := None; m_terminal := Some name;
     m_content := JNull; m_result := result; m_pid := JNull; m_cwd := None |}.

Definition list_msg : message :=
  {| m_type := Some "list"; m_name := None; m_target := None;
     m_command := None; m_callback := None; m_terminal := None;
     m_content := JNull; m_result := JNull; m_pid := JNull; m_cwd := None |}.

(** The result record of a finished command. *)
Definition command_result (returncode : Z) (stdout stderr : string) : json :=
  JDict [("returncode", JInt returncode); ("stdout", JStr stdout);
         ("stderr", JStr stderr)].

(** Two environments used in the examples: every write goes through, or
    every write goes through except those to one connection. *)
Definition all_up : environment :=
  {| peer_ok := fun _ => true; os_getcwd := "/" |}.

Definition down (c : conn) : environment :=
  {| peer_ok := fun s => negb (Nat.eqb s c); os_getcwd := "/" |}.

(** Whether a write to [s] goes through in state [b]. *)
Definition write_ok (env : environment) (s : conn) (b : broker) : bool :=
  negb (is_closed s b) && peer_ok env s.

Definition write (s : conn) (msg : out_msg) (ok : bool) : event :=
  {| ev_socket := s; ev_msg := msg; ev_delivered := ok |}.

(** [name in self.terminals] for a string-or-None. *)
Definition is_registered (name : option string) (b : broker) : bool :=
  match name with
  | Some n => PyDict.contains n (terminals b)
  | None => false
  end.

(** ** Example runs *)

(** Terminals A and B have registered on connections 1 and 2. *)
Definition two_terminals : broker :=
  fst (run [(all_up, 1, Data (register_msg "A" 101 "/home/a"));
            (all_up, 2, Data (register_msg "B" 102 "/home/b"))] init).

(** Then A asked B to run [echo hi] and to be told when it is done. *)
Definition pending_callback : broker :=
  fst (run [(all_up, 1, Data (execute_msg "B" "echo hi" (Some "A")))]
         two_terminals).

(** Terminals A, B and C on connections 1, 2 and 3. *)
Definition three_terminals : broker :=
  fst (run [(all_up, 3, Data (register_msg "C" 103 "/home/c"))] two_terminals).

(** A's peer has closed connection 1. *)
Definition after_close : broker :=
  fst (run [(all_up, 1, PeerClosed)] two_terminals).

(** Terminals named [a:b], [a], X and Y; X has asked [a:b] to run [c]. *)
Definition colon_names : broker :=
  fst (run [(all_up, 1, Data (register_msg "a:b" 101 "/"));
            (all_up, 2, Data (register_msg "a" 102 "/"));
            (all_up, 3, Data (register_msg "X" 103 "/"));
            (all_up, 4, Data (register_msg "Y" 104 "/"));
            (all_up, 3, Data (execute_msg "a:b" "c" (Some "X")))] init).

(** The turns on which the loop of [_handle_client] is left at once: no
    data, or an exception from [recv] or [json.loads]. *)
Definition session_over (r : recv_result) : bool :=
  match r with
  | Data _ => false
  | Undecodable | PeerClosed | RecvError => true
  end.

(** Whether a name contains the separator of the callback key. *)
Fixpoint has_colon (s : string) : bool :=
  match s with
  | EmptyString => false
  | String a s' => Ascii.eqb a ":"%char || has_colon s'
  end.

(** Whether [m] reads or writes the callback entry stored under [key]: a
    [complete] or an [execute] whose f-string is [key]. *)
Definition touches_key (key : string) (m : message) : bool :=
  match m_type m with
  | Some ty =>
      (String.eqb ty "complete"
       && String.eqb (callback_key (m_terminal m) (m_command m)) key)
      || (String.eqb ty "execute"
          && String.eqb (callback_key (m_target m) (m_command m)) key)
  | None => false
  end.

(** A turn that leaves the entry under [key] alone. *)
Definition quiet (key : string) (t : turn) : bool :=
  match t with
  | (_, _, Data m) => negb (touches_key key m)
  | (_, _, _) => true
  end.

(** ** The registry invariant *)

Definition result_of {A} (x : result A * broker * list event) := fst (fst x).
Definition state_of {A} (x : result A * broker * list event) := snd (fst x).
Definition events_of {A} (x : result A * broker * list event) := snd x.

(** Names are unique in both tables, and no terminal has an empty name. *)
Record wf (b : broker) : Prop := {
  wf_terminals : NoDup (PyDict.keys (terminals b));
  wf_callbacks : NoDup (PyDict.keys (completion_callbacks b));
  wf_names : forall k, In k (PyDict.keys (terminals b)) -> k <> ""
}.

(** A computation keeps a property of the state, whether it returns or
    raises. *)
Definition preserves {A} (P : broker -> Prop) (c : M A) : Prop :=
  forall b, P b -> P (state_of (c b)).

(** ** The terminal side: [PipelineTerminal]

    What the broker writes reaches the terminal as a JSON object; the
    accessors below are [message.get(...)] on the object built at the
    matching [send] of the broker.  A [print] is recorded as its template
    and arguments, a [socket.send] as the message sent.  The shell is part
    of the environment: [subprocess.run] returns a result or raises. *)

Definition out_type (msg : out_msg) : option string :=
  match msg with
  | Registered _ => None
  | Message _ => Some "message"
  | Execute _ _ => Some "execute"
  | Callback _ _ _ => Some "callback"
  | TerminalList _ => Some "list"
  end.

Definition out_content (msg : out_msg) : json :=
  match msg with Message content => content | _ => JNull end.

Definition out_command (msg : out_msg) : option string :=
  match msg with
  | Execute command _ => command
  | Callback _ command _ => command
  | _ => None
  end.

Definition out_callback (msg : out_msg) : option string :=
  match msg with Execute _ callback => callback | _ => None end.

Definition out_from_terminal (msg : out_msg) : option string :=
  match msg with Callback from_terminal _ _ => from_terminal | _ => None end.

Definition out_result (msg : out_msg) : json :=
  match msg with Callback _ _ result => result | _ => JNull end.

(** Truth value of a decoded JSON value. *)
Definition json_truthy (j : json) : bool :=
  match j with
  | JNull => false
  | JBool b => b
  | JInt z => negb (Z.eqb z 0)
  | JStr s => negb (String.eqb s "")
  | JList l => match l with [] => false | _ => true end
  | JDict l => match l with [] => false | _ => true end
  end.

(** Lookup in a decoded object; of two members with one name the later
    counts, as in [json.loads]. *)
Fixpoint dict_get (k : string) (l : list (string * json)) : option json :=
  match l with
  | [] => None
  | (k', v) :: l' =>
      match dict_get k l' with
      | Some v' => Some v'
      | None => if String.eqb k k' then Some v else None
      end
  end.

Module PipelineTerminal.

Inductive exn := AttributeError | OSError | SubprocessError.

Inductive outcome (A : Type) :=
| Done (a : A)
| Failed (e : exn).
Arguments Done {A} a.
Arguments Failed {A} e.

(** The result of [subprocess.run(..., capture_output=True, text=True)]. *)
Record completed_process := {
  returncode : Z;
  stdout : string;
  stderr : string
}.

Inductive printed :=
| PipelineMessage (content : json)
| PipelineExecute (command : option string)
| Output (output : string)
| ErrorExecuting
| CallbackFrom (from_terminal : option string)
| CommandLine (command : option string)
| ReturnCode (code : json)
| OutputLine (out : json)
| ErrorLine (err : json)
| FailedToConnect.

Inductive effect :=
| Print (p : printed)
| Send (m : message).

Inductive socket_state := Connected | Unconnected.

Record t := {
  name : string;
  port : Z;
  socket : option socket_state;
  running : bool
}.

(** [PipelineTerminal.__init__] *)
Definition init (name : string) (port : Z) : t :=
  {| name := name; port := port; socket := None; running := true |}.

Record environment := {
  subprocess_run : option string -> option completed_process;
  connect_ok : bool;
  send_ok : bool;
  os_getpid : Z;
  os_getcwd : string
}.

(** Effects so far, and a value or an exception. *)
Definition W (A : Type) := (outcome A * list effect)%type.

Definition ret {A} (a : A) : W A := (Done a, []).

Definition bind {A B} (c : W A) (f : A -> W B) : W B :=
  match c with
  | (Done a, effs) => let (r, effs') := f a in (r, effs ++ effs')
  | (Failed e, effs) => (Failed e, effs)
  end.

Definition seq {A} (c : W unit) (d : W A) : W A := bind c (fun _ => d).

(** [try: body except Exception: handler] *)
Definition try_except (body handler : W unit) : W unit :=
  match body with
  | (Done a, effs) => (Done a, effs)
  | (Failed _, effs) => let (r, effs') := handler in (r, effs ++ effs')
  end.

Definition print (p : printed) : W unit := (Done tt, [Print p]).

Definition raise {A} (e : exn) : W A := (Failed e, []).

(** [result.get(k)]: only a decoded object has a [get]. *)
Definition json_get (j : json) (k : string) : W json :=
  match j with
  | JDict l => ret (match dict_get k l with Some v => v | None => JNull end)
  | _ => raise AttributeError
  end.

Section Methods.
Variable env : environment.
Variable self : t.

(** [self.socket.send(json.dumps(msg).encode())] *)
Definition socket_send (msg : message) : W unit :=
  match socket self with
  | None => raise AttributeError
  | Some Unconnected => raise OSError
  | Some Connected =>
      if send_ok env then (Done tt, [Send msg]) else raise OSError
  end.

Definition _execute_received_command (message : out_msg) : W unit :=
  let command := out_command message in
  let callback := out_callback message in
  seq (print (PipelineExecute command))
    (try_except
       (bind (match subprocess_run env command with
              | Some result => ret result
              | None => raise SubprocessError
              end)
          (fun result =>
             let output :=
               if Z.eqb (returncode result) 0 then stdout result
               else stderr result in
             seq (print (Output output))
               (if truthy callback then
                  let completion_msg :=
                    {| m_type := Some "complete"; m_name := None;
                       m_target := None; m_command := command;
                       m_callback := None; m_terminal := Some (name self);
                       m_content := JNull;
                       m_result :=
                         JDict [("returncode", JInt (returncode result));
                                ("stdout", JStr (stdout result));
                                ("stderr", JStr (stderr result))];
                       m_pid := JNull; m_cwd := None |} in
                  socket_send completion_msg
                else ret tt)))
       (print ErrorExecuting)).

Definition _handle_callback (message : out_msg) : W unit :=
  let from_terminal := out_from_terminal message in
  let command := out_command message in
  let result := out_result message in
  seq (print (CallbackFrom from_terminal))
    (seq (print (CommandLine command))
       (bind (json_get result "returncode") (fun code =>
        seq (print (ReturnCode code))
          (bind (json_get result "stdout") (fun out =>
           seq (if json_truthy out then
                  bind (json_get result "stdout") (fun out' =>
                        print (OutputLine out'))
                else ret tt)
             (bind (json_get result "stderr") (fun err =>
              if json_truthy err then
                bind (json_get result "stderr") (fun err' =>
                      print (ErrorLine err'))
              else ret tt))))))).

Definition _handle_message (message : out_msg) : W unit :=
  match out_type message with
  | Some msg_type =>
      if String.eqb msg_type "message" then
        print (PipelineMessage (out_content message))
      else if String.eqb msg_type "execute" then
        _execute_received_command message
      else if String.eqb msg_type "callback" then
        _handle_callback message
      else ret tt
  | None => ret tt
  end.

Definition send_to_terminal (target content : string) : W unit :=
  match socket self with
  | Some _ => socket_send (send_msg target (JStr content))
  | None => ret tt
  end.

Definition execute_in_terminal (target command : string) (callback : bool)
  : W unit :=
  match socket self with
  | Some _ =>
      socket_send
        (execute_msg target command
           (if callback then Some (name self) else None))
  | None => ret tt
  end.

Definition list_terminals : W unit :=
  match socket self with
  | Some _ => socket_send list_msg
  | None => ret tt
  end.

End Methods.

(** What one turn of the loop of [_listen_for_messages] reads. *)
Inductive received :=
| Inbound (m : out_msg)
| NoData
| Unreadable.

(** One turn of [_listen_for_messages]: whether the loop goes on, and the
    effects of the turn. *)
Definition _listen_for_messages (env : environment) (self : t)
    (r : received) : bool * list effect :=
  if running self then
    match r with
    | Inbound m =>
        match _handle_message env self m with
        | (Done _, effs) => (true, effs)
        | (Failed _, effs) => (false, effs)
        end
    | NoData | Unreadable => (false, [])
    end
  else (false, []).

(** [connect]: the returned flag, the terminal afterwards and the effects.
    The socket object is stored before the connection is attempted. *)
Definition connect (env : environment) (self : t) : bool * t * list effect :=
  let unconnected :=
    {| name := name self; port := port self; socket := Some Unconnected;
       running := running self |} in
  let connected :=
    {| name := name self; port := port self; socket := Some Connected;
       running := running self |} in
  if connect_ok env then
    match socket_send env connected
            (register_msg (name self) (os_getpid env) (os_getcwd env)) with
    | (Done _, effs) => (true, connected, effs)
    | (Failed _, effs) => (false, connected, effs ++ [Print FailedToConnect])
    end
  else (false, unconnected, [Print FailedToConnect]).

End PipelineTerminal.

(** Whether a turn is a [register] under the name [n]. *)
Definition registers (n : string) (t : turn) : bool :=
  match t with
  | (_, _, Data m) =>
      match m_type m, m_name m with
      | Some ty, Some n' => String.eqb ty "register" && String.eqb n' n
      | _, _ => false
      end
  | (_, _, _) => false
  end.

(** ** The shapes of a handled message

    Every call of [_process_message] ends in one of six ways; the result,
    the new state and the writes are given for each. *)

Definition reply_result (ok : bool) : result unit :=
  if ok then Ok tt else Raised OSError.

Inductive handled (env : environment) (m : message) (c : conn) (b : broker)
  : result unit * broker * list event -> Prop :=
| handled_ignored :
    handled env m c b (Ok tt, b, [])
| handled_register n :
    m_type m = Some "register" -> m_name m = Some n -> n <> "" ->
    handled env m c b
      (reply_result (write_ok env c b),
       with_terminals
         (PyDict.set n
            {| socket := c; pid := m_pid m;
               cwd := match m_cwd m with
                      | Some d => d
                      | None => JStr (os_getcwd env)
                      end |} (terminals b)) b,
       [write c (Registered n) (write_ok env c b)])
| handled_send t e :
    m_type m = Some "send" -> m_target m = Some t ->
    PyDict.get t (terminals b) = Some e ->
    handled env m c b
      (Ok tt,
       (if write_ok env (socket e) b then b
        else with_terminals (PyDict.del t (terminals b)) b),
       [write (socket e) (Message (m_content m)) (write_ok env (socket e) b)])
| handled_execute t e :
    m_type m = Some "execute" -> m_target m = Some t ->
    PyDict.get t (terminals b) = Some e ->
    handled env m c b
      (Ok tt,
       (let b1 :=
          if truthy (m_callback m)
          then with_callbacks
                 (PyDict.set (callback_key (Some t) (m_command m))
                    (py_str (m_callback m)) (completion_callbacks b)) b
          else b in
        if write_ok env (socket e) b then b1
        else with_terminals (PyDict.del t (terminals b)) b1),
       [write (socket e) (Execute (m_command m) (m_callback m))
          (write_ok env (socket e) b)])
| handled_complete cb :
    m_type m = Some "complete" ->
    PyDict.get (callback_key (m_terminal m) (m_command m))
      (completion_callbacks b) = Some cb ->
    handled env m c b
      (Ok tt,
       with_callbacks
         (PyDict.del (callback_key (m_terminal m) (m_command m))
            (completion_callbacks b)) b,
       match PyDict.get cb (terminals b) with
       | Some e =>
           [write (socket e)
              (Callback (m_terminal m) (m_command m) (m_result m))
              (write_ok env (socket e) b)]
       | None => []
       end)
| handled_list :
    m_type m = Some "list" ->
    handled env m c b
      (reply_result (write_ok env c b), b,
       [write c (TerminalList (PyDict.keys (terminals b)))
          (write_ok env c b)]).

(** The [type] values [_process_message] has a branch for. *)
Definition recognised (msg_type : option string) : bool :=
  match msg_type with
  | Some ty =>
      existsb (String.eqb ty)
        ["register"; "send"; "execute"; "complete"; "list"]
  | None => false
  end.

(** Callback entries name a terminal and sit under a key with a colon. *)
Definition callbacks_wf (b : broker) : Prop :=
  forall k v,
    PyDict.get k (completion_callbacks b) = Some v ->
    v <> "" /\ has_colon k = true.

(** ** Facts about dictionaries *)

Module PyDictFacts.
Import PyDict.

Section Facts.
Context {V : Type}.
Implicit Types (k : string) (v : V) (d : dict V).

Lemma get_set_eq k v d : get k (set k v d) = Some v.
Proof.
  induction d as [|[k' v'] d IH]; simpl.
  - now rewrite String.eqb_refl.
  - destruct (String.eqb_spec k k') as [->|Hne]; simpl.
    + now rewrite String.eqb_refl.
    + apply String.eqb_neq in Hne. now rewrite Hne.
Qed.

Lemma get_set_neq k k' v d : k <> k' -> get k' (set k v d) = get k' d.
Proof.
  intros Hne. induction d as [|[k1 v1] d IH]; simpl.
  - destruct (String.eqb_spec k' k); congruence.
  - destruct (String.eqb_spec k k1) as [->|Hk]; simpl.
    + destruct (String.eqb_spec k' k1); congruence.
    + now rewrite IH.
Qed.

Lemma get_del_eq k d : get k (del k d) = None.
Proof.
  induction d as [|[k' v'] d IH]; simpl; [reflexivity|].
  destruct (String.eqb_spec k k') as [->|Hne]; simpl; [exact IH|].
  apply String.eqb_neq in Hne. now rewrite Hne.
Qed.

Lemma get_del_neq k k' d : k <> k' -> get k' (del k d) = get k' d.
Proof.
  intros Hne. induction d as [|[k1 v1] d IH]; simpl; [reflexivity|].
  destruct (String.eqb_spec k k1) as [->|Hk]; simpl.
  - destruct (String.eqb_spec k' k1); congruence.
  - now rewrite IH.
Qed.

Lemma contains_keys k d : contains k d = true <-> In k (keys d).
Proof.
  unfold contains. induction d as [|[k' v'] d IH]; simpl.
  - split; [discriminate | tauto].
  - destruct (String.eqb_spec k k') as [->|Hne].
    + split; auto.
    + rewrite IH. split; [tauto | intros [E|H]; congruence].
Qed.

Lemma get_Some_keys k v d : get k d = Some v -> In k (keys d).
Proof.
  intros H. apply contains_keys. unfold contains. now rewrite H.
Qed.

Lemma get_None_keys k d : get k d = None <-> ~ In k (keys d).
Proof.
  rewrite <- contains_keys. unfold contains.
  destruct (get k d); split; congruence.
Qed.

Lemma keys_set_present k v d :
  contains k d = true -> keys (set k v d) = keys d.
Proof.
  unfold contains. induction d as [|[k' v'] d IH]; simpl; [discriminate|].
  destruct (String.eqb_spec k k') as [->|Hne]; simpl; [reflexivity|].
  intros H. now rewrite IH.
Qed.

Lemma keys_set_fresh k v d :
  contains k d = false -> keys (set k v d) = keys d ++ [k].
Proof.
  unfold contains. induction d as [|[k' v'] d IH]; simpl; [reflexivity|].
  destruct (String.eqb_spec k k') as [->|Hne]; simpl; [discriminate|].
  intros H. now rewrite IH.
Qed.

Lemma keys_del k d :
  keys (del k d) = filter (fun k' => negb (String.eqb k k')) (keys d).
Proof.
  unfold del, keys. induction d as [|[k' v'] d IH]; simpl; [reflexivity|].
  destruct (String.eqb k k'); simpl; now rewrite IH.
Qed.

Lemma In_keys_set k k' v d :
  In k' (keys (set k v d)) <-> k' = k \/ In k' (keys d).
Proof.
  destruct (contains k d) eqn:Hc.
  - rewrite keys_set_present by exact Hc.
    apply contains_keys in Hc. split; [tauto | intros [->|H]; auto].
  - rewrite keys_set_fresh by exact Hc. rewrite in_app_iff. simpl.
    split; [intros [H|[H|[]]]; auto | intros [->|H]; auto].
Qed.

Lemma In_keys_del k k' d :
  In k' (keys (del k d)) <-> k' <> k /\ In k' (keys d).
Proof.
  rewrite keys_del, filter_In.
  destruct (String.eqb_spec k k') as [->|Hne]; simpl;
    split; intros [H1 H2]; split; auto; congruence.
Qed.

Lemma NoDup_keys_set k v d : NoDup (keys d) -> NoDup (keys (set k v d)).
Proof.
  intros Hnd. destruct (contains k d) eqn:Hc.
  - now rewrite keys_set_present.
  - rewrite keys_set_fresh by exact Hc.
    apply NoDup_app; repeat split; auto.
    + constructor; [intros [] | constructor].
    + intros x Hx [<-|[]]. apply contains_keys in Hx. congruence.
Qed.

Lemma NoDup_keys_del k d : NoDup (keys d) -> NoDup (keys (del k d)).
Proof. intros Hnd. rewrite keys_del. now apply NoDup_filter. Qed.

End Facts.
End PyDictFacts.

(** ** Preservation of the invariant *)

Section Preservation.
Variable P : broker -> Prop.

Lemma preserves_ret {A} (a : A) : preserves P (ret a).
Proof. intros b Hb. exact Hb. Qed.

Lemma preserves_bind {A B} (c : M A) (f : A -> M B) :
  preserves P c -> (forall a, preserves P (f a)) -> preserves P (bind c f).
Proof.
  intros Hc Hf b Hb. unfold bind, state_of.
  specialize (Hc b Hb). unfold state_of in Hc.
  destruct (c b) as [[[a|e] b1] evs]; simpl in *; [|exact Hc].
  specialize (Hf a b1 Hc). unfold state_of in Hf.
  destruct (f a b1) as [[r b2] evs2]. exact Hf.
Qed.

Lemma preserves_try (body handler : M unit) :
  preserves P body -> preserves P handler ->
  preserves P (try_except body handler).
Proof.
  intros Hc Hh b Hb. unfold try_except, state_of.
  specialize (Hc b Hb). unfold state_of in Hc.
  destruct (body b) as [[[a|e] b1] evs]; simpl in *; [exact Hc|].
  specialize (Hh b1 Hc). unfold state_of in Hh.
  destruct (handler b1) as [[r b2] evs2]. exact Hh.
Qed.

Lemma preserves_get_terminals : preserves P get_terminals.
Proof. intros b Hb. exact Hb. Qed.

Lemma preserves_get_callbacks : preserves P get_callbacks.
Proof. intros b Hb. exact Hb. Qed.

Lemma preserves_sock_send env s msg : preserves P (sock_send env s msg).
Proof.
  intros b Hb. unfold sock_send, state_of.
  destruct (negb (is_closed s b) && peer_ok env s); exact Hb.
Qed.

End Preservation.

Create HintDb handlers.

#[local] Hint Resolve preserves_ret preserves_get_terminals
  preserves_get_callbacks preserves_sock_send : handlers.

Lemma wf_init : wf init.
Proof. split; simpl; [constructor | constructor | tauto]. Qed.

Lemma wf_set_terminal k v : k <> "" -> preserves wf (set_terminal k v).
Proof.
  intros Hk b [H1 H2 H3]. split; simpl; auto.
  - now apply PyDictFacts.NoDup_keys_set.
  - intros k' Hin. apply PyDictFacts.In_keys_set in Hin as [->|Hin]; auto.
Qed.

Lemma wf_del_terminal k : preserves wf (del_terminal k).
Proof.
  intros b [H1 H2 H3]. unfold del_terminal, state_of.
  destruct (PyDict.contains k (terminals b)); split; simpl; auto.
  - now apply PyDictFacts.NoDup_keys_del.
  - intros k' Hin. apply PyDictFacts.In_keys_del in Hin as [_ Hin]; auto.
Qed.

Lemma wf_set_callback k v : preserves wf (set_callback k v).
Proof.
  intros b [H1 H2 H3]. split; simpl; auto.
  now apply PyDictFacts.NoDup_keys_set.
Qed.

Lemma wf_del_callback k : preserves wf (del_callback k).
Proof.
  intros b [H1 H2 H3]. unfold del_callback, state_of.
  destruct (PyDict.contains k (completion_callbacks b)); split; simpl; auto.
  now apply PyDictFacts.NoDup_keys_del.
Qed.

#[local] Hint Resolve wf_del_terminal wf_set_callback wf_del_callback
  : handlers.

Ltac preserve_step :=
  first
    [ apply preserves_bind; [|intro]
    | apply preserves_try
    | match goal with
      | |- preserves _ (match ?x with _ => _ end) => destruct x eqn:?
      | |- preserves _ (if ?x then _ else _) => destruct x eqn:?
      end
    | solve [auto with handlers] ].

Lemma truthy_nonempty s : truthy (Some s) = true -> s <> "".
Proof.
  simpl. destruct (String.eqb_spec s ""); [discriminate | auto].
Qed.

Lemma wf_process_message env m c : preserves wf (_process_message env m c).
Proof.
  unfold _process_message, _register_terminal, _send_to_terminal,
    _execute_command, _handle_completion, _list_terminals.
  repeat preserve_step.
  apply wf_set_terminal, truthy_nonempty. assumption.
Qed.

Lemma wf_close_socket c b : wf b -> wf (close_socket c b).
Proof. intros [H1 H2 H3]. now split. Qed.

Lemma wf_handle_client env c r b : wf b -> wf (fst (_handle_client env c r b)).
Proof.
  intros Hb. unfold _handle_client.
  destruct (is_closed c b); [exact Hb|].
  destruct r; simpl; auto using wf_close_socket.
  pose proof (wf_process_message env m c b Hb) as H. unfold state_of in H.
  destruct (_process_message env m c b) as [[[u|e] b'] evs]; simpl in *;
    auto using wf_close_socket.
Qed.

(** Every state the broker can be in satisfies the invariant. *)
Lemma reachable_wf b : reachable b -> wf b.
Proof.
  induction 1 as [|env c r b Hr IH]; [exact wf_init|].
  now apply wf_handle_client.
Qed.

Lemma reachable_run ts b : reachable b -> reachable (fst (run ts b)).
Proof.
  revert b. induction ts as [|[[env c] r] ts IH]; intros b Hb; simpl.
  - exact Hb.
  - pose proof (reach_turn env c r b Hb) as H1.
    destruct (_handle_client env c r b) as [b1 evs1]. simpl in H1.
    specialize (IH b1 H1). destruct (run ts b1) as [b2 evs2]. exact IH.
Qed.

(** ** What each handler does *)

Ltac handler_unfold :=
  unfold _process_message, _register_terminal, _send_to_terminal,
    _execute_command, _handle_completion, _list_terminals, bind, ret,
    try_except, get_terminals, get_callbacks, set_terminal, del_terminal,
    set_callback, del_callback, sock_send, write_ok, write.

Lemma get_contains {V} k (v : V) d :
  PyDict.get k d = Some v -> PyDict.contains k d = true.
Proof. intros H. unfold PyDict.contains. now rewrite H. Qed.

Lemma truthy_Some s : s <> "" -> truthy (Some s) = true.
Proof.
  intros H. simpl. apply String.eqb_neq in H. now rewrite H.
Qed.

(** [send] to a registered target: one write; a failed write removes the
    target. *)
Lemma send_registered env m c b t e :
  m_type m = Some "send" -> m_target m = Some t ->
  PyDict.get t (terminals b) = Some e ->
  _process_message env m c b =
    if write_ok env (socket e) b
    then (Ok tt, b, [write (socket e) (Message (m_content m)) true])
    else (Ok tt, with_terminals (PyDict.del t (terminals b)) b,
          [write (socket e) (Message (m_content m)) false]).
Proof.
  intros Hty Ht He. handler_unfold. rewrite Hty, Ht. simpl. rewrite He.
  destruct (negb (is_closed (socket e) b) && peer_ok env (socket e));
    [reflexivity|].
  now rewrite (get_contains _ _ _ He).
Qed.

(** [execute] to a registered target: the callback entry is written first,
    then one write; a failed write removes the target and keeps the entry. *)
Lemma execute_registered env m c b t e :
  m_type m = Some "execute" -> m_target m = Some t ->
  PyDict.get t (terminals b) = Some e ->
  let b1 :=
    if truthy (m_callback m)
    then with_callbacks
           (PyDict.set (callback_key (Some t) (m_command m))
              (py_str (m_callback m)) (completion_callbacks b)) b
    else b in
  _process_message env m c b =
    if write_ok env (socket e) b
    then (Ok tt, b1,
          [write (socket e) (Execute (m_command m) (m_callback m)) true])
    else (Ok tt, with_terminals (PyDict.del t (terminals b)) b1,
          [write (socket e) (Execute (m_command m) (m_callback m)) false]).
Proof.
  intros Hty Ht He. handler_unfold. rewrite Hty, Ht. simpl. rewrite He.
  assert (Hc : forall x, is_closed (socket e) (with_callbacks x b)
                         = is_closed (socket e) b) by reflexivity.
  destruct (m_callback m) as [cb|]; simpl;
    [destruct (String.eqb cb ""); simpl|]; rewrite ?Hc;
    destruct (negb (is_closed (socket e) b) && peer_ok env (socket e));
    simpl; rewrite ?(get_contains _ _ _ He); reflexivity.
Qed.

(** [complete] with a matching entry: at most one write, the entry goes, the
    registry stays as it is. *)
Lemma completion_found env m c b cb :
  m_type m = Some "complete" ->
  PyDict.get (callback_key (m_terminal m) (m_command m))
    (completion_callbacks b) = Some cb ->
  _process_message env m c b =
    (Ok tt,
     with_callbacks
       (PyDict.del (callback_key (m_terminal m) (m_command m))
          (completion_callbacks b)) b,
     match PyDict.get cb (terminals b) with
     | Some e =>
         [write (socket e)
            (Callback (m_terminal m) (m_command m) (m_result m))
            (write_ok env (socket e) b)]
     | None => []
     end).
Proof.
  intros Hty Hcb. handler_unfold. rewrite Hty. simpl. rewrite Hcb.
  destruct (PyDict.get cb (terminals b)) as [e|]; simpl.
  - destruct (negb (is_closed (socket e) b) && peer_ok env (socket e));
      simpl; now rewrite (get_contains _ _ _ Hcb).
  - now rewrite (get_contains _ _ _ Hcb).
Qed.

Lemma completion_missing env m c b :
  m_type m = Some "complete" ->
  PyDict.get (callback_key (m_terminal m) (m_command m))
    (completion_callbacks b) = None ->
  _process_message env m c b = (Ok tt, b, []).
Proof.
  intros Hty Hcb. handler_unfold. rewrite Hty. simpl. now rewrite Hcb.
Qed.

Lemma list_reply env m c b :
  m_type m = Some "list" ->
  _process_message env m c b =
    ((if write_ok env c b then Ok tt else Raised OSError), b,
     [write c (TerminalList (PyDict.keys (terminals b))) (write_ok env c b)]).
Proof.
  intros Hty. handler_unfold. rewrite Hty. simpl.
  now destruct (negb (is_closed c b) && peer_ok env c).
Qed.

Lemma register_named env m c b n :
  m_type m = Some "register" -> m_name m = Some n -> n <> "" ->
  let entry :=
    {| socket := c; pid := m_pid m;
       cwd := match m_cwd m with
              | Some d => d
              | None => JStr (os_getcwd env)
              end |} in
  _process_message env m c b =
    ((if write_ok env c b then Ok tt else Raised OSError),
     with_terminals (PyDict.set n entry (terminals b)) b,
     [write c (Registered n) (write_ok env c b)]).
Proof.
  intros Hty Hn Hne. handler_unfold. rewrite Hty, Hn. simpl.
  apply String.eqb_neq in Hne. rewrite Hne. simpl.
  assert (Hc : forall x, is_closed c (with_terminals x b) = is_closed c b)
    by reflexivity.
  rewrite Hc. now destruct (negb (is_closed c b) && peer_ok env c).
Qed.

Lemma handle_client_data env c m b :
  is_closed c b = false ->
  _handle_client env c (Data m) b =
    match _process_message env m c b with
    | (Ok _, b', evs) => (b', evs)
    | (Raised _, b', evs) => (close_socket c b', evs)
    end.
Proof. intros H. unfold _handle_client. now rewrite H. Qed.

Lemma not_registered_get t b :
  is_registered (Some t) b = false -> PyDict.get t (terminals b) = None.
Proof.
  simpl. unfold PyDict.contains.
  destruct (PyDict.get t (terminals b)); [discriminate | reflexivity].
Qed.

Lemma registered_get t b :
  is_registered (Some t) b = true ->
  exists e, PyDict.get t (terminals b) = Some e.
Proof.
  simpl. unfold PyDict.contains.
  destruct (PyDict.get t (terminals b)) as [e|]; [eauto | discriminate].
Qed.

Lemma send_unregistered env m c b :
  m_type m = Some "send" -> is_registered (m_target m) b = false ->
  _process_message env m c b = (Ok tt, b, []).
Proof.
  intros Hty Hreg. handler_unfold. rewrite Hty. simpl.
  destruct (m_target m) as [t|]; [|reflexivity].
  now rewrite (not_registered_get _ _ Hreg).
Qed.

Lemma execute_unregistered env m c b :
  m_type m = Some "execute" -> is_registered (m_target m) b = false ->
  _process_message env m c b = (Ok tt, b, []).
Proof.
  intros Hty Hreg. handler_unfold. rewrite Hty. simpl.
  destruct (m_target m) as [t|]; [|reflexivity].
  now rewrite (not_registered_get _ _ Hreg).
Qed.

Lemma register_unnamed env m c b :
  m_type m = Some "register" -> truthy (m_name m) = false ->
  _process_message env m c b = (Ok tt, b, []).
Proof.
  intros Hty Hname. handler_unfold. rewrite Hty. simpl.
  destruct (m_name m) as [n|]; [|reflexivity].
  unfold truthy in *. destruct (String.eqb n ""); [reflexivity | discriminate].
Qed.

(** Unrecognised and missing [type] values are ignored. *)
Lemma other_type env m c b :
  (forall ty, m_type m = Some ty ->
              ~ In ty ["register"; "send"; "execute"; "complete"; "list"]) ->
  _process_message env m c b = (Ok tt, b, []).
Proof.
  intros H. unfold _process_message, ret.
  destruct (m_type m) as [ty|]; [|reflexivity].
  specialize (H ty eq_refl). simpl in H.
  repeat match goal with
         | |- context [String.eqb ty ?s] =>
             destruct (String.eqb_spec ty s);
             [exfalso; apply H; subst ty; auto 10|]
         end.
  reflexivity.
Qed.

(** When a session ends, its socket is closed and nothing else changes. *)
Lemma session_end_state env c r b :
  is_closed c b = false -> session_over r = true ->
  _handle_client env c r b = (close_socket c b, []).
Proof.
  intros Hc Hr. unfold _handle_client. rewrite Hc.
  destruct r; [discriminate | reflexivity | reflexivity | reflexivity].
Qed.

Lemma is_closed_close_socket c b : is_closed c (close_socket c b) = true.
Proof. unfold is_closed. simpl. now rewrite Nat.eqb_refl. Qed.

(** ** Turns that leave a callback entry alone *)

Ltac no_callback_written :=
  let Hin := fresh "Hin" in
  let Hmsg := fresh "Hmsg" in
  intros ? ? ? ? Hin Hmsg; unfold events_of in Hin; simpl in Hin;
  repeat (destruct Hin as [<-|Hin]; [discriminate Hmsg|]);
  contradiction Hin.

(** A message that does not touch [key] keeps the entry under [key], and
    the callback messages it writes, if any, belong to other keys. *)
Lemma quiet_message env m c b key :
  touches_key key m = false ->
  let r := _process_message env m c b in
  PyDict.get key (completion_callbacks (state_of r))
  = PyDict.get key (completion_callbacks b) /\
  (forall ev fr cmd res,
      In ev (events_of r) -> ev_msg ev = Callback fr cmd res ->
      callback_key fr cmd <> key).
Proof.
  intros Hq r. subst r. unfold touches_key in Hq.
  destruct (m_type m) as [ty|] eqn:Hty.
  2: { rewrite other_type by (intros ty H; congruence).
       split; [reflexivity | no_callback_written]. }
  destruct (String.eqb_spec ty "register") as [->|Hn1].
  { destruct (truthy (m_name m)) eqn:Htr.
    - destruct (m_name m) as [n|] eqn:Hn; [|discriminate].
      rewrite (register_named env m c b n Hty Hn (truthy_nonempty n Htr)).
      split; [reflexivity | no_callback_written].
    - rewrite (register_unnamed env m c b Hty Htr).
      split; [reflexivity | no_callback_written]. }
  destruct (String.eqb_spec ty "send") as [->|Hn2].
  { destruct (is_registered (m_target m) b) eqn:Hreg.
    - destruct (m_target m) as [t|] eqn:Ht; [|discriminate].
      destruct (registered_get t b Hreg) as [e He].
      rewrite (send_registered env m c b t e Hty Ht He).
      destruct (write_ok env (socket e) b);
        (split; [reflexivity | no_callback_written]).
    - rewrite (send_unregistered env m c b Hty Hreg).
      split; [reflexivity | no_callback_written]. }
  destruct (String.eqb_spec ty "execute") as [->|Hn3].
  { simpl in Hq. apply String.eqb_neq in Hq.
    destruct (is_registered (m_target m) b) eqn:Hreg.
    - destruct (m_target m) as [t|] eqn:Ht; [|discriminate].
      destruct (registered_get t b Hreg) as [e He].
      rewrite (execute_registered env m c b t e Hty Ht He).
      destruct (truthy (m_callback m)), (write_ok env (socket e) b);
        unfold state_of; simpl;
        (split; [|no_callback_written]);
        try reflexivity; now apply PyDictFacts.get_set_neq.
    - rewrite (execute_unregistered env m c b Hty Hreg).
      split; [reflexivity | no_callback_written]. }
  destruct (String.eqb_spec ty "complete") as [->|Hn4].
  { simpl in Hq. rewrite orb_false_r in Hq. apply String.eqb_neq in Hq.
    destruct (PyDict.get (callback_key (m_terminal m) (m_command m))
                (completion_callbacks b)) as [cb|] eqn:Hcb.
    - rewrite (completion_found env m c b cb Hty Hcb).
      unfold state_of, events_of; simpl. split.
      + now apply PyDictFacts.get_del_neq.
      + intros ev fr cmd res Hin Hmsg.
        destruct (PyDict.get cb (terminals b)) as [e|]; [|contradiction].
        destruct Hin as [<-|[]]. unfold write in Hmsg. simpl in Hmsg.
        inversion Hmsg; subst fr cmd. exact Hq.
    - rewrite (completion_missing env m c b Hty Hcb).
      split; [reflexivity | no_callback_written]. }
  destruct (String.eqb_spec ty "list") as [->|Hn5].
  { rewrite (list_reply env m c b Hty).
    split; [reflexivity | no_callback_written]. }
  rewrite other_type.
  - split; [reflexivity | no_callback_written].
  - intros ty' H. rewrite Hty in H. injection H as <-.
    simpl. intuition congruence.
Qed.

Lemma quiet_turn env c r b key :
  quiet key (env, c, r) = true ->
  PyDict.get key (completion_callbacks (fst (_handle_client env c r b)))
  = PyDict.get key (completion_callbacks b) /\
  (forall ev fr cmd res,
      In ev (snd (_handle_client env c r b)) ->
      ev_msg ev = Callback fr cmd res -> callback_key fr cmd <> key).
Proof.
  intros Hq. unfold _handle_client.
  destruct (is_closed c b); [split; [reflexivity | intros ? ? ? ? []]|].
  destruct r as [m| | |];
    try (split; [reflexivity | intros ? ? ? ? []]).
  simpl in Hq. apply negb_true_iff in Hq.
  destruct (quiet_message env m c b key Hq) as [H1 H2].
  unfold state_of, events_of in H1, H2.
  destruct (_process_message env m c b) as [[[u|e] b'] evs]; simpl in *;
    split; assumption.
Qed.

(** Any number of quiet turns, of any sessions, keep the entry. *)
Lemma quiet_run ts b key :
  forallb (quiet key) ts = true ->
  PyDict.get key (completion_callbacks (fst (run ts b)))
  = PyDict.get key (completion_callbacks b) /\
  (forall ev fr cmd res,
      In ev (snd (run ts b)) ->
      ev_msg ev = Callback fr cmd res -> callback_key fr cmd <> key).
Proof.
  revert b. induction ts as [|[[env c] r] ts IH]; intros b Hq; simpl.
  - split; [reflexivity | intros ? ? ? ? []].
  - simpl in Hq. apply andb_true_iff in Hq as [Hq1 Hq2].
    destruct (quiet_turn env c r b key Hq1) as [H1 H2].
    destruct (_handle_client env c r b) as [b1 evs1]. simpl in H1, H2.
    destruct (IH b1 Hq2) as [H3 H4].
    destruct (run ts b1) as [b2 evs2]. simpl in *. split.
    + congruence.
    + intros ev fr cmd res Hin. apply in_app_or in Hin as [Hin|Hin]; eauto.
Qed.

(** ** The claims *)

(** C1, as stated, fails: after the peer of A closes connection 1 the entry
    of A, whose session is that connection, is still in the registry, and a
    [list] request is answered with A and B. *)
Lemma C1_stale_entry_counterexample :
  is_closed 1 after_close = true /\
  PyDict.get "A" (terminals after_close)
    = Some {| socket := 1; pid := JInt 101; cwd := JStr "/home/a" |} /\
  _handle_client all_up 2 (Data list_msg) after_close
    = (after_close, [write 2 (TerminalList ["A"; "B"]) true]).
Proof. vm_compute. repeat split. Qed.

(** C1, amended: when the connection of a registered terminal is closed by
    the peer or its read fails, the session closes its socket, writes
    nothing, and leaves the registry and the callback table as they are; a
    following [list] still carries the name.  The entry goes later: a [send]
    or an [execute] to that name fails on the closed socket and removes
    it. *)
Theorem C1_close_keeps_entry env c r b n e :
  is_closed c b = false ->
  session_over r = true ->
  PyDict.get n (terminals b) = Some e -> socket e = c ->
  let b' := fst (_handle_client env c r b) in
  snd (_handle_client env c r b) = [] /\
  is_closed c b' = true /\
  terminals b' = terminals b /\
  completion_callbacks b' = completion_callbacks b /\
  In n (PyDict.keys (terminals b')) /\
  (forall env' c' m,
      m_type m = Some "list" ->
      events_of (_process_message env' m c' b')
      = [write c' (TerminalList (PyDict.keys (terminals b)))
           (write_ok env' c' b')]) /\
  (forall env' c' m,
      m_type m = Some "send" -> m_target m = Some n ->
      let r' := _process_message env' m c' b' in
      events_of r' = [write c (Message (m_content m)) false] /\
      terminals (state_of r') = PyDict.del n (terminals b) /\
      is_registered (Some n) (state_of r') = false) /\
  (forall env' c' m,
      m_type m = Some "execute" -> m_target m = Some n ->
      let r' := _process_message env' m c' b' in
      events_of r'
      = [write c (Execute (m_command m) (m_callback m)) false] /\
      terminals (state_of r') = PyDict.del n (terminals b) /\
      is_registered (Some n) (state_of r') = false).
Proof.
  intros Hc Hr He Hs b'. subst b'.
  rewrite (session_end_state env c r b Hc Hr). simpl fst; simpl snd.
  assert (He' : PyDict.get n (terminals (close_socket c b)) = Some e)
    by exact He.
  assert (Hw : forall env', write_ok env' (socket e) (close_socket c b) = false).
  { intros env'. unfold write_ok. rewrite Hs, is_closed_close_socket.
    reflexivity. }
  assert (Hgone : PyDict.contains n (PyDict.del n (terminals b)) = false).
  { unfold PyDict.contains. now rewrite PyDictFacts.get_del_eq. }
  split; [reflexivity|].
  split; [apply is_closed_close_socket|].
  split; [reflexivity|].
  split; [reflexivity|].
  split; [eapply PyDictFacts.get_Some_keys, He|].
  split; [|split].
  - intros env' c' m Hty. now rewrite (list_reply env' m c' _ Hty).
  - intros env' c' m Hty Ht r'. subst r'.
    rewrite (send_registered env' m c' _ n e Hty Ht He'), Hw, Hs.
    repeat split. exact Hgone.
  - intros env' c' m Hty Ht r'. subst r'.
    rewrite (execute_registered env' m c' _ n e Hty Ht He'), Hw, Hs.
    unfold state_of, events_of; simpl.
    destruct (truthy (m_callback m)); repeat split; exact Hgone.
Qed.

Lemma C1_close_keeps_entry_witness :
  let b' := fst (_handle_client all_up 1 PeerClosed two_terminals) in
  snd (_handle_client all_up 1 PeerClosed two_terminals) = [] /\
  is_closed 1 b' = true /\
  terminals b' = terminals two_terminals /\
  completion_callbacks b' = completion_callbacks two_terminals /\
  In "A" (PyDict.keys (terminals b')) /\
  (forall env' c' m,
      m_type m = Some "list" ->
      events_of (_process_message env' m c' b')
      = [write c' (TerminalList ["A"; "B"]) (write_ok env' c' b')]) /\
  (forall env' c' m,
      m_type m = Some "send" -> m_target m = Some "A" ->
      let r' := _process_message env' m c' b' in
      events_of r' = [write 1 (Message (m_content m)) false] /\
      terminals (state_of r') = PyDict.del "A" (terminals two_terminals) /\
      is_registered (Some "A") (state_of r') = false) /\
  (forall env' c' m,
      m_type m = Some "execute" -> m_target m = Some "A" ->
      let r' := _process_message env' m c' b' in
      events_of r'
      = [write 1 (Execute (m_command m) (m_callback m)) false] /\
      terminals (state_of r') = PyDict.del "A" (terminals two_terminals) /\
      is_registered (Some "A") (state_of r') = false).
Proof.
  apply (C1_close_keeps_entry all_up 1 PeerClosed two_terminals "A"
           {| socket := 1; pid := JInt 101; cwd := JStr "/home/a" |});
    reflexivity.
Defined.

(** What [_handle_completion] does, in terms of the key it computes: with
    no entry under the key nothing is written and the state is unchanged;
    an entry under the key is deleted in every case, the registry is
    untouched, and one callback message is written to the session of the
    callback terminal when that terminal is registered. *)
Lemma completion_routing_by_key env m c b :
  m_type m = Some "complete" ->
  let key := callback_key (m_terminal m) (m_command m) in
  let r := _process_message env m c b in
  match PyDict.get key (completion_callbacks b) with
  | None => r = (Ok tt, b, [])
  | Some cb =>
      result_of r = Ok tt /\
      terminals (state_of r) = terminals b /\
      closed (state_of r) = closed b /\
      completion_callbacks (state_of r)
        = PyDict.del key (completion_callbacks b) /\
      PyDict.get key (completion_callbacks (state_of r)) = None /\
      events_of r =
        match PyDict.get cb (terminals b) with
        | Some e =>
            [write (socket e)
               (Callback (m_terminal m) (m_command m) (m_result m))
               (write_ok env (socket e) b)]
        | None => []
        end
  end.
Proof.
  intros Hty key r.
  destruct (PyDict.get key (completion_callbacks b)) as [cb|] eqn:Hcb.
  - subst r. rewrite (completion_found env m c b cb Hty Hcb).
    unfold result_of, state_of, events_of; simpl.
    repeat split. apply PyDictFacts.get_del_eq.
  - exact (completion_missing env m c b Hty Hcb).
Qed.

(** C2 at the failing input: X waits for [a:b] to finish [c], and that is
    the only entry ever created.  A [complete] arrives for the pair (a, b:c),
    for which no entry exists.  The broker finds the entry of (a:b, c) under
    the shared key, writes a callback to X and deletes the entry, where the
    claim has nothing written and no state changed. *)
Theorem C2_completion_for_foreign_pair :
  let res := command_result 0 "" "" in
  let r := _process_message all_up (completion_msg "a" "b:c" res) 2
             colon_names in
  ("a", "b:c") <> ("a:b", "c") /\
  completion_callbacks colon_names
    = [(callback_key (Some "a:b") (Some "c"), "X")] /\
  PyDict.get (callback_key (Some "a") (Some "b:c"))
    (completion_callbacks colon_names) = Some "X" /\
  r = (Ok tt, with_callbacks [] colon_names,
       [write 3 (Callback (Some "a") (Some "b:c") res) true]) /\
  state_of r <> colon_names /\
  events_of r <> [].
Proof.
  vm_compute. repeat split; discriminate.
Qed.

(** C3: registering a name again overwrites its entry with the new session:
    no error comes from the collision, the registry keeps one entry per name
    (the name keeps its place and every other entry is untouched), and a
    following [send] to that name is one write, to the newest connection. *)
Theorem C3_reregistration env m c b n :
  reachable b ->
  m_type m = Some "register" -> m_name m = Some n -> n <> "" ->
  let r := _process_message env m c b in
  let b' := state_of r in
  events_of r = [write c (Registered n) (write_ok env c b)] /\
  result_of r = (if write_ok env c b then Ok tt else Raised OSError) /\
  PyDict.get n (terminals b')
    = Some {| socket := c; pid := m_pid m;
              cwd := match m_cwd m with
                     | Some d => d
                     | None => JStr (os_getcwd env)
                     end |} /\
  (forall n', n' <> n ->
              PyDict.get n' (terminals b') = PyDict.get n' (terminals b)) /\
  (is_registered (Some n) b = true ->
   PyDict.keys (terminals b') = PyDict.keys (terminals b)) /\
  NoDup (PyDict.keys (terminals b')) /\
  count_occ string_dec (PyDict.keys (terminals b')) n = 1 /\
  (forall env' m' c',
      m_type m' = Some "send" -> m_target m' = Some n ->
      events_of (_process_message env' m' c' b')
      = [write c (Message (m_content m')) (write_ok env' c b')]).
Proof.
  intros Hr Hty Hn Hne r b'. subst b' r.
  pose proof (wf_terminals b (reachable_wf b Hr)) as Hnd.
  rewrite (register_named env m c b n Hty Hn Hne).
  unfold state_of, events_of, result_of; simpl.
  set (entry := {| socket := c; pid := m_pid m; cwd := _ |}).
  assert (Hget : PyDict.get n (PyDict.set n entry (terminals b)) = Some entry)
    by apply PyDictFacts.get_set_eq.
  assert (Hnd' : NoDup (PyDict.keys (PyDict.set n entry (terminals b))))
    by now apply PyDictFacts.NoDup_keys_set.
  repeat split; auto.
  - intros n' Hn'. apply PyDictFacts.get_set_neq. congruence.
  - intros Hin. now apply PyDictFacts.keys_set_present.
  - apply NoDup_count_occ'; [exact Hnd'|].
    eapply PyDictFacts.get_Some_keys, Hget.
  - intros env' m' c' Hty' Ht'.
    rewrite (send_registered env' m' c'
               (with_terminals (PyDict.set n entry (terminals b)) b)
               n entry Hty' Ht' Hget).
    simpl socket.
    now destruct (write_ok env' c (with_terminals _ b)).
Qed.

Lemma C3_reregistration_witness :
  let m := register_msg "A" 201 "/tmp" in
  let r := _process_message all_up m 5 two_terminals in
  let b' := state_of r in
  events_of r = [write 5 (Registered "A") true] /\
  result_of r = Ok tt /\
  PyDict.get "A" (terminals b')
    = Some {| socket := 5; pid := JInt 201; cwd := JStr "/tmp" |} /\
  (forall n', n' <> "A" ->
              PyDict.get n' (terminals b')
              = PyDict.get n' (terminals two_terminals)) /\
  (is_registered (Some "A") two_terminals = true ->
   PyDict.keys (terminals b') = PyDict.keys (terminals two_terminals)) /\
  NoDup (PyDict.keys (terminals b')) /\
  count_occ string_dec (PyDict.keys (terminals b')) "A" = 1 /\
  (forall env' m' c',
      m_type m' = Some "send" -> m_target m' = Some "A" ->
      events_of (_process_message env' m' c' b')
      = [write 5 (Message (m_content m')) (write_ok env' 5 b')]).
Proof.
  apply (C3_reregistration all_up (register_msg "A" 201 "/tmp") 5
           two_terminals "A").
  - apply reachable_run, reach_init.
  - reflexivity.
  - reflexivity.
  - discriminate.
Defined.

(** An [execute] with a callback to a registered target always leaves its
    entry in the callback table, whether or not the write went through. *)
Lemma execute_sets_callback env m c b t cb :
  m_type m = Some "execute" -> m_target m = Some t ->
  m_callback m = Some cb -> cb <> "" ->
  is_registered (Some t) b = true ->
  completion_callbacks (state_of (_process_message env m c b))
  = PyDict.set (callback_key (Some t) (m_command m)) cb
      (completion_callbacks b).
Proof.
  intros Hty Ht Hcb Hne Hreg.
  destruct (registered_get t b Hreg) as [e He].
  rewrite (execute_registered env m c b t e Hty Ht He).
  rewrite Hcb, (truthy_Some cb Hne). simpl py_str.
  now destruct (write_ok env (socket e) b).
Qed.

Lemma execute_writes_no_callback env m c b :
  m_type m = Some "execute" ->
  forall ev fr cmd res,
    In ev (events_of (_process_message env m c b)) ->
    ev_msg ev <> Callback fr cmd res.
Proof.
  intros Hty ev fr cmd res Hin Hmsg. revert Hin.
  destruct (is_registered (m_target m) b) eqn:Hreg.
  - destruct (m_target m) as [t|] eqn:Ht; [|discriminate].
    destruct (registered_get t b Hreg) as [e He].
    rewrite (execute_registered env m c b t e Hty Ht He).
    destruct (write_ok env (socket e) b); intros [<-|[]]; discriminate.
  - rewrite (execute_unregistered env m c b Hty Hreg). intros [].
Qed.

(** C4, as stated, fails when an [execute] is not accepted: the write of
    the first [execute] to C fails, so C leaves the registry; the second
    [execute] for the same pair finds no target and is dropped without
    touching the entry; the [complete] then notifies A, the first callback
    terminal, and B gets nothing. *)
Lemma C4_dropped_second_execute_counterexample :
  let m1 := execute_msg "C" "make" (Some "A") in
  let m2 := execute_msg "C" "make" (Some "B") in
  let m3 := completion_msg "C" "make" (command_result 0 "ok" "") in
  let r1 := _process_message (down 3) m1 1 three_terminals in
  let r2 := _process_message all_up m2 2 (state_of r1) in
  let r3 := _process_message all_up m3 4 (state_of r2) in
  events_of r1 = [write 3 (Execute (Some "make") (Some "A")) false] /\
  is_registered (Some "C") (state_of r1) = false /\
  r2 = (Ok tt, state_of r1, []) /\
  completion_callbacks (state_of r2) = [("C:make", "A")] /\
  events_of r3 =
    [write 1 (Callback (Some "C") (Some "make") (command_result 0 "ok" ""))
       true].
Proof. vm_compute. repeat split. Qed.

(** C4, amended: two [execute] messages for the same (target, command) with
    different non-empty callback terminals, where the target is registered
    when each of the two is processed, with any traffic in between and after
    that neither completes nor re-issues that pair: the second overwrites
    the entry of the first, and nothing written up to then is a callback for
    the pair.  The matching [complete] then writes at most one callback
    message, to the session of the second callback terminal and not to the
    session of the first, and consumes the entry, so that a repeated
    [complete] writes nothing. *)
Theorem C4_second_execute_overwrites
    env1 env2 env3 c1 c2 c3 m1 m2 m3 ts1 ts2 b t cb1 cb2 :
  m_type m1 = Some "execute" -> m_target m1 = Some t ->
  m_callback m1 = Some cb1 -> cb1 <> "" ->
  m_type m2 = Some "execute" -> m_target m2 = Some t ->
  m_command m2 = m_command m1 ->
  m_callback m2 = Some cb2 -> cb2 <> "" ->
  cb1 <> cb2 ->
  m_type m3 = Some "complete" -> m_terminal m3 = Some t ->
  m_command m3 = m_command m1 ->
  let key := callback_key (Some t) (m_command m1) in
  forallb (quiet key) ts1 = true ->
  forallb (quiet key) ts2 = true ->
  let r1 := _process_message env1 m1 c1 b in
  let b1 := fst (run ts1 (state_of r1)) in
  let r2 := _process_message env2 m2 c2 b1 in
  let b2 := fst (run ts2 (state_of r2)) in
  let r3 := _process_message env3 m3 c3 b2 in
  is_registered (Some t) b = true ->
  is_registered (Some t) b1 = true ->
  PyDict.get key (completion_callbacks b1) = Some cb1 /\
  PyDict.get key (completion_callbacks b2) = Some cb2 /\
  (forall ev res,
      In ev (events_of r1 ++ snd (run ts1 (state_of r1))
             ++ events_of r2 ++ snd (run ts2 (state_of r2))) ->
      ev_msg ev <> Callback (Some t) (m_command m1) res) /\
  events_of r3 =
    match PyDict.get cb2 (terminals b2) with
    | Some e2 =>
        [write (socket e2) (Callback (Some t) (m_command m1) (m_result m3))
           (write_ok env3 (socket e2) b2)]
    | None => []
    end /\
  (forall e1,
      PyDict.get cb1 (terminals b2) = Some e1 ->
      (forall e2, PyDict.get cb2 (terminals b2) = Some e2 ->
                  socket e2 <> socket e1) ->
      forall ev, In ev (events_of r3) -> ev_socket ev <> socket e1) /\
  PyDict.get key (completion_callbacks (state_of r3)) = None /\
  (forall env4 c4,
      _process_message env4 m3 c4 (state_of r3) = (Ok tt, state_of r3, [])).
Proof.
  intros Hty1 Ht1 Hcb1 Hne1 Hty2 Ht2 Hcmd2 Hcb2 Hne2 Hdiff Hty3 Ht3 Hcmd3
    key Hq1 Hq2 r1 b1 r2 b2 r3 Hreg Hreg1.
  destruct (quiet_run ts1 (state_of r1) key Hq1) as [Hk1 Hev1].
  destruct (quiet_run ts2 (state_of r2) key Hq2) as [Hk2 Hev2].
  assert (H1 : PyDict.get key (completion_callbacks b1) = Some cb1).
  { subst b1. rewrite Hk1. subst r1.
    rewrite (execute_sets_callback env1 m1 c1 b t cb1) by assumption.
    apply PyDictFacts.get_set_eq. }
  assert (H2 : PyDict.get key (completion_callbacks b2) = Some cb2).
  { subst b2. rewrite Hk2. subst r2.
    rewrite (execute_sets_callback env2 m2 c2 b1 t cb2) by assumption.
    rewrite Hcmd2. apply PyDictFacts.get_set_eq. }
  assert (H2' : PyDict.get (callback_key (m_terminal m3) (m_command m3))
                  (completion_callbacks b2) = Some cb2)
    by (rewrite Ht3, Hcmd3; exact H2).
  assert (H3 : r3 = _) by exact (completion_found env3 m3 c3 b2 cb2 Hty3 H2').
  rewrite Ht3, Hcmd3 in H3. fold key in H3.
  assert (H4 : PyDict.get key (completion_callbacks (state_of r3)) = None).
  { rewrite H3. unfold state_of; simpl. apply PyDictFacts.get_del_eq. }
  split; [exact H1|]. split; [exact H2|]. split; [|split; [|split; [|split]]].
  - intros ev res Hin Hmsg.
    repeat (apply in_app_or in Hin as [Hin|Hin]).
    + exact (execute_writes_no_callback env1 m1 c1 b Hty1 _ _ _ _ Hin Hmsg).
    + exact (Hev1 _ _ _ _ Hin Hmsg eq_refl).
    + exact (execute_writes_no_callback env2 m2 c2 b1 Hty2 _ _ _ _ Hin Hmsg).
    + exact (Hev2 _ _ _ _ Hin Hmsg eq_refl).
  - now rewrite H3.
  - intros e1 He1 Hsock ev Hin. rewrite H3 in Hin.
    unfold events_of in Hin; simpl in Hin.
    destruct (PyDict.get cb2 (terminals b2)) as [e2|]; [|contradiction].
    destruct Hin as [<-|[]]. simpl. now apply Hsock.
  - exact H4.
  - intros env4 c4. apply completion_missing; [exact Hty3|].
    rewrite Ht3, Hcmd3. exact H4.
Qed.

Lemma C4_second_execute_overwrites_witness :
  let m1 := execute_msg "C" "make" (Some "A") in
  let m2 := execute_msg "C" "make" (Some "B") in
  let m3 := completion_msg "C" "make" (command_result 0 "ok" "") in
  let ts1 := [(all_up, 1, Data (send_msg "B" (JStr "asked C to build")))] in
  let ts2 := [(all_up, 3, Data (completion_msg "C" "ls" JNull));
              (all_up, 2, Data list_msg)] in
  let key := "C:make" in
  let r1 := _process_message all_up m1 1 three_terminals in
  let b1 := fst (run ts1 (state_of r1)) in
  let r2 := _process_message all_up m2 2 b1 in
  let b2 := fst (run ts2 (state_of r2)) in
  let r3 := _process_message all_up m3 3 b2 in
  PyDict.get key (completion_callbacks b1) = Some "A" /\
  PyDict.get key (completion_callbacks b2) = Some "B" /\
  (forall ev res,
      In ev (events_of r1 ++ snd (run ts1 (state_of r1))
             ++ events_of r2 ++ snd (run ts2 (state_of r2))) ->
      ev_msg ev <> Callback (Some "C") (Some "make") res) /\
  events_of r3 =
    [write 2 (Callback (Some "C") (Some "make") (command_result 0 "ok" ""))
       true] /\
  (forall e1,
      PyDict.get "A" (terminals b2) = Some e1 ->
      (forall e2, PyDict.get "B" (terminals b2) = Some e2 ->
                  socket e2 <> socket e1) ->
      forall ev, In ev (events_of r3) -> ev_socket ev <> socket e1) /\
  PyDict.get key (completion_callbacks (state_of r3)) = None /\
  (forall env4 c4,
      _process_message env4 m3 c4 (state_of r3) = (Ok tt, state_of r3, [])).
Proof.
  apply (C4_second_execute_overwrites all_up all_up all_up 1 2 3
           (execute_msg "C" "make" (Some "A"))
           (execute_msg "C" "make" (Some "B"))
           (completion_msg "C" "make" (command_result 0 "ok" ""))
           [(all_up, 1, Data (send_msg "B" (JStr "asked C to build")))]
           [(all_up, 3, Data (completion_msg "C" "ls" JNull));
            (all_up, 2, Data list_msg)]
           three_terminals "C" "A" "B");
    try reflexivity; discriminate.
Defined.

(** The two sibling paths: a failed write of [send] or of [execute] is not
    reported to anyone and removes the target from the registry. *)
Lemma send_write_failure_removes_target env m c b t e :
  m_type m = Some "send" -> m_target m = Some t ->
  PyDict.get t (terminals b) = Some e ->
  write_ok env (socket e) b = false ->
  let r := _process_message env m c b in
  result_of r = Ok tt /\
  events_of r = [write (socket e) (Message (m_content m)) false] /\
  is_registered (Some t) (state_of r) = false.
Proof.
  intros Hty Ht He Hw r. subst r.
  rewrite (send_registered env m c b t e Hty Ht He), Hw.
  repeat split. unfold state_of; simpl.
  unfold PyDict.contains. now rewrite PyDictFacts.get_del_eq.
Qed.

Lemma execute_write_failure_removes_target env m c b t e :
  m_type m = Some "execute" -> m_target m = Some t ->
  PyDict.get t (terminals b) = Some e ->
  write_ok env (socket e) b = false ->
  let r := _process_message env m c b in
  result_of r = Ok tt /\
  events_of r = [write (socket e) (Execute (m_command m) (m_callback m)) false] /\
  is_registered (Some t) (state_of r) = false.
Proof.
  intros Hty Ht He Hw r. subst r.
  rewrite (execute_registered env m c b t e Hty Ht He), Hw.
  repeat split. unfold state_of; simpl.
  destruct (truthy (m_callback m)); simpl;
    unfold PyDict.contains; now rewrite PyDictFacts.get_del_eq.
Qed.

(** The third path: a [complete] never changes the registry, whatever
    happens to its write. *)
Lemma completion_keeps_registry env m c b :
  m_type m = Some "complete" ->
  terminals (state_of (_process_message env m c b)) = terminals b.
Proof.
  intros Hty.
  destruct (PyDict.get (callback_key (m_terminal m) (m_command m))
              (completion_callbacks b)) as [cb|] eqn:Hcb.
  - now rewrite (completion_found env m c b cb Hty Hcb).
  - now rewrite (completion_missing env m c b Hty Hcb).
Qed.

(** C5 at the failing input: B completes [echo hi] while the connection of
    the callback terminal A does not take the write.  The failure is silent,
    the callback entry is consumed, and A is still registered. *)
Theorem C5_callback_write_failure_keeps_target :
  let m := completion_msg "B" "echo hi" (command_result 0 "hi" "") in
  let r := _process_message (down 1) m 2 pending_callback in
  result_of r = Ok tt /\
  events_of r =
    [write 1 (Callback (Some "B") (Some "echo hi") (command_result 0 "hi" ""))
       false] /\
  completion_callbacks (state_of r) = [] /\
  terminals (state_of r) = terminals pending_callback /\
  is_registered (Some "A") (state_of r) = true.
Proof. vm_compute. repeat split. Qed.

(** The key of the callback table is the text [target:command].  It stands
    for the pair as long as no terminal name contains a colon. *)
Lemma callback_key_inj t1 t2 c1 c2 :
  has_colon t1 = false -> has_colon t2 = false ->
  callback_key (Some t1) c1 = callback_key (Some t2) c2 ->
  t1 = t2 /\ py_str c1 = py_str c2.
Proof.
  unfold callback_key. simpl py_str.
  generalize (py_str c1) (py_str c2). intros s1 s2.
  revert t2. induction t1 as [|a t1 IH]; intros [|a2 t2]; simpl;
    intros H1 H2 Heq.
  - injection Heq as Heq. auto.
  - injection Heq as Ha Heq. subst a2. discriminate.
  - injection Heq as Ha Heq. subst a. discriminate.
  - injection Heq as Ha Heq. subst a2.
    apply orb_false_iff in H1 as [_ H1]. apply orb_false_iff in H2 as [_ H2].
    destruct (IH t2 H1 H2 Heq) as [-> ->]. auto.
Qed.

(** C6 at the failing input: X waits for [a:b] to finish [c].  The pairs
    (a:b, c) and (a, b:c) differ and share one key, so a callback registered
    for the second pair overwrites the entry of the first, and a [complete]
    from terminal [a] for [b:c] is taken for the awaited completion: X is
    notified, the entry is consumed, and the completion of [a:b] for [c]
    finds nothing. *)
Theorem C6_callback_key_collision :
  let res := command_result 0 "" "" in
  ("a:b", "c") <> ("a", "b:c") /\
  callback_key (Some "a:b") (Some "c") = callback_key (Some "a") (Some "b:c") /\
  completion_callbacks colon_names = [("a:b:c", "X")] /\
  completion_callbacks
    (state_of (_process_message all_up (execute_msg "a" "b:c" (Some "Y")) 4
                 colon_names))
  = [("a:b:c", "Y")] /\
  let r := _process_message all_up (completion_msg "a" "b:c" res) 2
             colon_names in
  events_of r = [write 3 (Callback (Some "a") (Some "b:c") res) true] /\
  completion_callbacks (state_of r) = [] /\
  _process_message all_up (completion_msg "a:b" "c" res) 1 (state_of r)
  = (Ok tt, state_of r, []).
Proof. vm_compute. repeat split. discriminate. Qed.

(** C7: a [send] whose target is not in the registry is a silent no-op: the
    handler returns normally, no write is attempted on any socket (so
    neither a delivery nor a reply to the sender), and the registry, the
    callback table and the sender's session are unchanged. *)
Theorem C7_send_unknown_target env m c b :
  m_type m = Some "send" ->
  is_registered (m_target m) b = false ->
  _process_message env m c b = (Ok tt, b, []) /\
  (is_closed c b = false -> _handle_client env c (Data m) b = (b, [])).
Proof.
  intros Hty Hreg.
  assert (H : _process_message env m c b = (Ok tt, b, []))
    by exact (send_unregistered env m c b Hty Hreg).
  split; [exact H|].
  intros Hc. rewrite handle_client_data by exact Hc. now rewrite H.
Qed.

Lemma C7_send_unknown_target_witness :
  _process_message all_up (send_msg "ghost" (JStr "hi")) 1 two_terminals
    = (Ok tt, two_terminals, []) /\
  (is_closed 1 two_terminals = false ->
   _handle_client all_up 1 (Data (send_msg "ghost" (JStr "hi"))) two_terminals
     = (two_terminals, [])).
Proof.
  apply (C7_send_unknown_target all_up (send_msg "ghost" (JStr "hi")) 1
           two_terminals); reflexivity.
Defined.

(** C8: a [list] message leaves the state as it is and writes one reply to
    the requesting session, carrying the keys of the registry: every
    registered name once and nothing else.  The order is stable: it is the
    order of first registration (a new name goes last, a name registered
    again keeps its place), and a repeated request on the same registry gets
    the same list. *)
Theorem C8_list_reply env m c b :
  reachable b ->
  m_type m = Some "list" ->
  let r := _process_message env m c b in
  let names := PyDict.keys (terminals b) in
  state_of r = b /\
  events_of r = [write c (TerminalList names) (write_ok env c b)] /\
  NoDup names /\
  (forall n, In n names <-> is_registered (Some n) b = true) /\
  (forall n, is_registered (Some n) b = true ->
             count_occ string_dec names n = 1) /\
  (forall env' c',
      events_of (_process_message env' m c' (state_of r))
      = [write c' (TerminalList names) (write_ok env' c' b)]) /\
  (forall env' m' c' n,
      m_type m' = Some "register" -> m_name m' = Some n -> n <> "" ->
      PyDict.keys (terminals (state_of (_process_message env' m' c' b)))
      = if is_registered (Some n) b then names else names ++ [n]).
Proof.
  intros Hr Hty r names. subst r.
  pose proof (wf_terminals b (reachable_wf b Hr)) as Hnd.
  rewrite (list_reply env m c b Hty). unfold state_of, events_of; simpl.
  repeat split; auto.
  - now apply PyDictFacts.contains_keys.
  - now apply PyDictFacts.contains_keys.
  - intros n Hn. apply NoDup_count_occ'; [exact Hnd|].
    now apply PyDictFacts.contains_keys.
  - intros env' c'. now rewrite (list_reply env' m c' b Hty).
  - intros env' m' c' n Hty' Hn Hne.
    rewrite (register_named env' m' c' b n Hty' Hn Hne). simpl.
    destruct (PyDict.contains n (terminals b)) eqn:Hc.
    + now apply PyDictFacts.keys_set_present.
    + now apply PyDictFacts.keys_set_fresh.
Qed.

Lemma C8_list_reply_witness :
  let r := _process_message all_up list_msg 3 two_terminals in
  let names := ["A"; "B"] in
  state_of r = two_terminals /\
  events_of r = [write 3 (TerminalList names) true] /\
  NoDup names /\
  (forall n, In n names <-> is_registered (Some n) two_terminals = true) /\
  (forall n, is_registered (Some n) two_terminals = true ->
             count_occ string_dec names n = 1) /\
  (forall env' c',
      events_of (_process_message env' list_msg c' (state_of r))
      = [write c' (TerminalList names) (write_ok env' c' two_terminals)]) /\
  (forall env' m' c' n,
      m_type m' = Some "register" -> m_name m' = Some n -> n <> "" ->
      PyDict.keys
        (terminals (state_of (_process_message env' m' c' two_terminals)))
      = if is_registered (Some n) two_terminals then names else names ++ [n]).
Proof.
  apply (C8_list_reply all_up list_msg 3 two_terminals).
  - apply reachable_run, reach_init.
  - reflexivity.
Defined.

(** C9: a [register] whose name is missing or empty does nothing at all: no
    registry entry is created or changed and no reply is written. *)
Theorem C9_register_without_name env m c b :
  m_type m = Some "register" ->
  m_name m = None \/ m_name m = Some "" ->
  _process_message env m c b = (Ok tt, b, []) /\
  (is_closed c b = false -> _handle_client env c (Data m) b = (b, [])).
Proof.
  intros Hty Hname.
  assert (H : _process_message env m c b = (Ok tt, b, [])).
  { apply register_unnamed; [exact Hty|].
    destruct Hname as [-> | ->]; reflexivity. }
  split; [exact H|].
  intros Hc. rewrite handle_client_data by exact Hc. now rewrite H.
Qed.

Lemma C9_register_without_name_witness :
  _process_message all_up
    {| m_type := Some "register"; m_name := Some ""; m_target := None;
       m_command := None; m_callback := None; m_terminal := None;
       m_content := JNull; m_result := JNull; m_pid := JInt 7;
       m_cwd := None |} 3 two_terminals = (Ok tt, two_terminals, []) /\
  (is_closed 3 two_terminals = false ->
   _handle_client all_up 3
     (Data {| m_type := Some "register"; m_name := Some ""; m_target := None;
              m_command := None; m_callback := None; m_terminal := None;
              m_content := JNull; m_result := JNull; m_pid := JInt 7;
              m_cwd := None |}) two_terminals = (two_terminals, [])).
Proof.
  apply C9_register_without_name; [reflexivity | right; reflexivity].
Defined.

(** C10: an [execute] with a non-empty callback to a registered terminal
    writes the callback entry first and attempts the write in the state that
    already holds it; when that write fails the target leaves the registry
    and the entry for (target, command) stays in the callback table. *)
Theorem C10_failed_execute_keeps_callback env m c b t cb e :
  m_type m = Some "execute" ->
  m_target m = Some t ->
  m_callback m = Some cb -> cb <> "" ->
  PyDict.get t (terminals b) = Some e ->
  write_ok env (socket e) b = false ->
  let key := callback_key (Some t) (m_command m) in
  let b1 := with_callbacks (PyDict.set key cb (completion_callbacks b)) b in
  let msg := Execute (m_command m) (Some cb) in
  let r := _process_message env m c b in
  r = try_except (sock_send env (socket e) msg) (del_terminal t) b1 /\
  result_of r = Ok tt /\
  events_of r = [write (socket e) msg false] /\
  is_registered (Some t) (state_of r) = false /\
  terminals (state_of r) = PyDict.del t (terminals b) /\
  PyDict.get key (completion_callbacks (state_of r)) = Some cb.
Proof.
  intros Hty Ht Hcb Hne He Hw key b1 msg r. subst r.
  rewrite (execute_registered env m c b t e Hty Ht He).
  rewrite Hw, Hcb, (truthy_Some cb Hne). simpl py_str.
  fold key. fold b1. fold msg.
  split.
  - unfold try_except, sock_send, del_terminal.
    change (is_closed (socket e) b1) with (is_closed (socket e) b).
    unfold write_ok in Hw. rewrite Hw.
    change (terminals b1) with (terminals b).
    now rewrite (get_contains _ _ _ He).
  - unfold result_of, state_of, events_of; simpl.
    repeat split.
    + unfold PyDict.contains. now rewrite PyDictFacts.get_del_eq.
    + apply PyDictFacts.get_set_eq.
Qed.

Lemma C10_failed_execute_keeps_callback_witness :
  let m := execute_msg "B" "make" (Some "A") in
  let b1 :=
    with_callbacks (PyDict.set "B:make" "A" (completion_callbacks two_terminals))
      two_terminals in
  let msg := Execute (Some "make") (Some "A") in
  let r := _process_message (down 2) m 1 two_terminals in
  r = try_except (sock_send (down 2) 2 msg) (del_terminal "B") b1 /\
  result_of r = Ok tt /\
  events_of r = [write 2 msg false] /\
  is_registered (Some "B") (state_of r) = false /\
  terminals (state_of r) = PyDict.del "B" (terminals two_terminals) /\
  PyDict.get "B:make" (completion_callbacks (state_of r)) = Some "A".
Proof.
  apply (C10_failed_execute_keeps_callback (down 2)
           (execute_msg "B" "make" (Some "A")) 1 two_terminals "B" "A"
           {| socket := 2; pid := JInt 102; cwd := JStr "/home/b" |});
    try reflexivity.
  discriminate.
Defined.

(** ** Further properties of the router *)

Lemma process_message_handled env m c b :
  handled env m c b (_process_message env m c b).
Proof.
  destruct (m_type m) as [ty|] eqn:Hty.
  2: { rewrite other_type by (intros ty H; congruence). constructor. }
  destruct (String.eqb_spec ty "register") as [->|Hn1].
  { destruct (truthy (m_name m)) eqn:Htr.
    - destruct (m_name m) as [n|] eqn:Hn; [|discriminate].
      pose proof (truthy_nonempty n Htr) as Hne.
      rewrite (register_named env m c b n Hty Hn Hne).
      exact (handled_register env m c b n Hty Hn Hne).
    - rewrite (register_unnamed env m c b Hty Htr). constructor. }
  destruct (String.eqb_spec ty "send") as [->|Hn2].
  { destruct (is_registered (m_target m) b) eqn:Hreg.
    - destruct (m_target m) as [t|] eqn:Ht; [|discriminate].
      destruct (registered_get t b Hreg) as [e He].
      rewrite (send_registered env m c b t e Hty Ht He).
      generalize (handled_send env m c b t e Hty Ht He).
      now destruct (write_ok env (socket e) b).
    - rewrite (send_unregistered env m c b Hty Hreg). constructor. }
  destruct (String.eqb_spec ty "execute") as [->|Hn3].
  { destruct (is_registered (m_target m) b) eqn:Hreg.
    - destruct (m_target m) as [t|] eqn:Ht; [|discriminate].
      destruct (registered_get t b Hreg) as [e He].
      rewrite (execute_registered env m c b t e Hty Ht He).
      generalize (handled_execute env m c b t e Hty Ht He).
      now destruct (write_ok env (socket e) b).
    - rewrite (execute_unregistered env m c b Hty Hreg). constructor. }
  destruct (String.eqb_spec ty "complete") as [->|Hn4].
  { destruct (PyDict.get (callback_key (m_terminal m) (m_command m))
                (completion_callbacks b)) as [cb|] eqn:Hcb.
    - rewrite (completion_found env m c b cb Hty Hcb).
      exact (handled_complete env m c b cb Hty Hcb).
    - rewrite (completion_missing env m c b Hty Hcb). constructor. }
  destruct (String.eqb_spec ty "list") as [->|Hn5].
  { rewrite (list_reply env m c b Hty).
    exact (handled_list env m c b Hty). }
  rewrite other_type; [constructor|].
  intros ty' H. rewrite Hty in H. injection H as <-.
  simpl. intuition congruence.
Qed.

(** X1: a message whose [type] is missing or is none of the five known
    values is ignored: the handler returns normally, nothing is written, the
    state is the same, and the session goes on. *)
Theorem unknown_type_ignored env m c b :
  recognised (m_type m) = false ->
  _process_message env m c b = (Ok tt, b, []) /\
  (is_closed c b = false -> _handle_client env c (Data m) b = (b, [])).
Proof.
  intros Hrec.
  assert (H : _process_message env m c b = (Ok tt, b, [])).
  { apply other_type. intros ty Hty Hin. rewrite Hty in Hrec.
    simpl in Hrec, Hin.
    repeat (destruct Hin as [<-|Hin]; [discriminate Hrec|]).
    exact Hin. }
  split; [exact H|].
  intros Hc. rewrite handle_client_data by exact Hc. now rewrite H.
Qed.

Lemma unknown_type_ignored_witness :
  let m := {| m_type := Some "callback"; m_name := Some "A";
              m_target := Some "B"; m_command := Some "ls";
              m_callback := Some "A"; m_terminal := Some "B";
              m_content := JNull; m_result := JNull; m_pid := JNull;
              m_cwd := None |} in
  _process_message all_up m 1 pending_callback
    = (Ok tt, pending_callback, []) /\
  (is_closed 1 pending_callback = false ->
   _handle_client all_up 1 (Data m) pending_callback
     = (pending_callback, [])).
Proof.
  apply unknown_type_ignored. reflexivity.
Defined.

(** X2: for a message whose routing fields are strings or absent, handled
    without another handler running in between, the only exception that
    leaves [_process_message] is the failure of a reply to the sender's own
    socket, in [register] and [list]: a failed write to a target is caught
    in [send], [execute] and [complete], and each [del] is reached only
    after the membership test on the same key, so none raises
    [KeyError]. *)
Theorem only_reply_failures_raise env m c b e :
  result_of (_process_message env m c b) = Raised e ->
  e = OSError /\
  write_ok env c b = false /\
  (m_type m = Some "register" \/ m_type m = Some "list") /\
  exists msg, events_of (_process_message env m c b) = [write c msg false].
Proof.
  destruct (process_message_handled env m c b) as
    [| n Hty Hn Hne | t e' Hty Ht He | t e' Hty Ht He | cb Hty Hcb | Hty];
    unfold result_of, events_of; simpl; try discriminate.
  - destruct (write_ok env c b); [discriminate|].
    intros Hr; injection Hr as <-. eauto 10.
  - destruct (write_ok env c b); [discriminate|].
    intros Hr; injection Hr as <-. eauto 10.
Qed.

Lemma only_reply_failures_raise_witness :
  OSError = OSError /\
  write_ok (down 3) 3 two_terminals = false /\
  (m_type list_msg = Some "register" \/ m_type list_msg = Some "list") /\
  exists msg,
    events_of (_process_message (down 3) list_msg 3 two_terminals)
    = [write 3 msg false].
Proof.
  apply (only_reply_failures_raise (down 3) list_msg 3 two_terminals OSError).
  reflexivity.
Defined.

(** X3: one message causes at most one write, and that write goes to the
    sender's own socket or to the socket of a terminal that was registered
    when the message arrived; the handlers never close a socket. *)
Theorem writes_are_targeted env m c b :
  let r := _process_message env m c b in
  length (events_of r) <= 1 /\
  closed (state_of r) = closed b /\
  (forall ev, In ev (events_of r) ->
     ev_socket ev = c \/
     exists n e, PyDict.get n (terminals b) = Some e /\
                 socket e = ev_socket ev).
Proof.
  intros r. subst r.
  destruct (process_message_handled env m c b) as
    [| n Hty Hn Hne | t e Hty Ht He | t e Hty Ht He | cb Hty Hcb | Hty];
    unfold events_of, state_of; simpl.
  - repeat split; auto. intros ev [].
  - repeat split; auto. intros ev [<-|[]]. now left.
  - repeat split; auto.
    + now destruct (write_ok env (socket e) b).
    + intros ev [<-|[]]. right. eauto.
  - repeat split; auto.
    + now destruct (truthy (m_callback m)), (write_ok env (socket e) b).
    + intros ev [<-|[]]. right. eauto.
  - destruct (PyDict.get cb (terminals b)) as [e|] eqn:He; simpl.
    + repeat split; auto. intros ev [<-|[]]. right. eauto.
    + repeat split; auto. intros ev [].
  - repeat split; auto. intros ev [<-|[]]. now left.
Qed.

Lemma has_colon_key target command :
  has_colon (callback_key target command) = true.
Proof.
  unfold callback_key. generalize (py_str target) (py_str command).
  intros s1 s2. change (":" ++ s2)%string with (String ":" s2).
  induction s1 as [|a s1 IH]; simpl; [reflexivity|].
  rewrite IH. apply orb_true_r.
Qed.

Lemma get_del_Some {V} k k' (v : V) d :
  PyDict.get k (PyDict.del k' d) = Some v -> PyDict.get k d = Some v.
Proof.
  destruct (string_dec k' k) as [->|Hne].
  - now rewrite PyDictFacts.get_del_eq.
  - now rewrite PyDictFacts.get_del_neq.
Qed.

Lemma get_set_Some {V} k k' (v v' : V) d :
  PyDict.get k (PyDict.set k' v' d) = Some v ->
  (k = k' /\ v = v') \/ PyDict.get k d = Some v.
Proof.
  destruct (string_dec k' k) as [->|Hne].
  - rewrite PyDictFacts.get_set_eq. intros H; injection H as <-. auto.
  - rewrite PyDictFacts.get_set_neq by exact Hne. auto.
Qed.

Lemma callbacks_wf_process_message env m c b :
  callbacks_wf b -> callbacks_wf (state_of (_process_message env m c b)).
Proof.
  intros Hwf.
  destruct (process_message_handled env m c b) as
    [| n Hty Hn Hne | t e Hty Ht He | t e Hty Ht He | cb Hty Hcb | Hty];
    unfold state_of; simpl; try exact Hwf.
  - now destruct (write_ok env (socket e) b).
  - assert (Hset : callbacks_wf
                     (with_callbacks
                        (PyDict.set (callback_key (Some t) (m_command m))
                           (py_str (m_callback m)) (completion_callbacks b))
                        b)
                   \/ truthy (m_callback m) = false).
    { destruct (truthy (m_callback m)) eqn:Htr; [left | now right].
      intros k v Hget. simpl in Hget.
      apply get_set_Some in Hget as [[-> ->]|Hget]; [|now apply Hwf].
      split; [|apply has_colon_key].
      destruct (m_callback m) as [cb|]; [|discriminate].
      now apply truthy_nonempty. }
    destruct (truthy (m_callback m)), (write_ok env (socket e) b),
      Hset as [Hset|Hset]; try discriminate; try exact Hwf; exact Hset.
  - intros k v Hget. simpl in Hget. apply get_del_Some in Hget.
    now apply Hwf.
Qed.

Lemma callbacks_wf_handle_client env c r b :
  callbacks_wf b -> callbacks_wf (fst (_handle_client env c r b)).
Proof.
  intros Hb. unfold _handle_client.
  destruct (is_closed c b); [exact Hb|].
  destruct r; simpl; try exact Hb.
  pose proof (callbacks_wf_process_message env m c b Hb) as H.
  unfold state_of in H.
  destruct (_process_message env m c b) as [[[u|e] b'] evs]; exact H.
Qed.

(** X4: in every state the broker can reach, terminal names are unique and
    none is empty, the keys of the callback table are unique and contain a
    colon, and every callback entry names a non-empty terminal. *)
Theorem reachable_invariant b :
  reachable b ->
  NoDup (PyDict.keys (terminals b)) /\
  NoDup (PyDict.keys (completion_callbacks b)) /\
  (forall n, is_registered (Some n) b = true -> n <> "") /\
  (forall k v, PyDict.get k (completion_callbacks b) = Some v ->
               v <> "" /\ has_colon k = true).
Proof.
  intros Hr.
  assert (Hcb : callbacks_wf b).
  { induction Hr as [|env c r b Hr IH].
    - intros k v Hget. discriminate.
    - now apply callbacks_wf_handle_client. }
  destruct (reachable_wf b Hr) as [H1 H2 H3].
  split; [exact H1|]. split; [exact H2|]. split; [|exact Hcb].
  intros n Hn. apply H3. now apply PyDictFacts.contains_keys.
Qed.

Lemma reachable_invariant_witness :
  NoDup (PyDict.keys (terminals pending_callback)) /\
  NoDup (PyDict.keys (completion_callbacks pending_callback)) /\
  (forall n, is_registered (Some n) pending_callback = true -> n <> "") /\
  (forall k v,
      PyDict.get k (completion_callbacks pending_callback) = Some v ->
      v <> "" /\ has_colon k = true).
Proof.
  apply reachable_invariant.
  unfold pending_callback, two_terminals.
  apply reachable_run, reachable_run, reach_init.
Defined.

(** X5: a message changes the registry at one name at most: a [register]
    at its [name] and nowhere else, a [send] or an [execute] at its [target]
    and nowhere else, a message of any other type nowhere.  Every other
    entry is read back as it was, whatever the other fields of the message
    hold. *)
Theorem registry_frame env m c b n :
  ~ (m_type m = Some "register" /\ m_name m = Some n) ->
  ~ ((m_type m = Some "send" \/ m_type m = Some "execute") /\
     m_target m = Some n) ->
  PyDict.get n (terminals (state_of (_process_message env m c b)))
  = PyDict.get n (terminals b).
Proof.
  intros Hname Htarget.
  destruct (process_message_handled env m c b) as
    [| n' Hty Hn Hne | t e Hty Ht He | t e Hty Ht He | cb Hty Hcb | Hty];
    unfold state_of; simpl; try reflexivity.
  - apply PyDictFacts.get_set_neq. intros ->. auto.
  - destruct (write_ok env (socket e) b); simpl; [reflexivity|].
    apply PyDictFacts.get_del_neq. intros ->. auto.
  - destruct (truthy (m_callback m)), (write_ok env (socket e) b); simpl;
      try reflexivity; apply PyDictFacts.get_del_neq; intros ->; auto.
Qed.

Lemma registry_frame_witness :
  let m := {| m_type := Some "send"; m_name := Some "A";
              m_target := Some "B"; m_command := None; m_callback := None;
              m_terminal := None; m_content := JStr "ping";
              m_result := JNull; m_pid := JNull; m_cwd := None |} in
  PyDict.get "A"
    (terminals (state_of (_process_message (down 2) m 1 two_terminals)))
  = PyDict.get "A" (terminals two_terminals).
Proof.
  apply registry_frame.
  - intros [H _]. discriminate H.
  - intros [_ H]. discriminate H.
Defined.

(** X6: names enter the registry only through [register] and keys enter
    the callback table only through [execute]: after any other message the
    names, respectively the keys, are among those held before. *)
Theorem tables_grow_only_by_register_and_execute env m c b :
  let b' := state_of (_process_message env m c b) in
  (m_type m <> Some "register" ->
   incl (PyDict.keys (terminals b')) (PyDict.keys (terminals b))) /\
  (m_type m <> Some "execute" ->
   incl (PyDict.keys (completion_callbacks b'))
        (PyDict.keys (completion_callbacks b))).
Proof.
  intros b'. subst b'.
  destruct (process_message_handled env m c b) as
    [| n' Hty Hn Hne | t e Hty Ht He | t e Hty Ht He | cb Hty Hcb | Hty];
    unfold state_of; simpl; split; intros Hnot;
    try congruence; try apply incl_refl.
  - destruct (write_ok env (socket e) b); simpl; [apply incl_refl|].
    intros k Hk. now apply PyDictFacts.In_keys_del in Hk.
  - now destruct (write_ok env (socket e) b).
  - destruct (truthy (m_callback m)), (write_ok env (socket e) b); simpl;
      try apply incl_refl;
      intros k Hk; now apply PyDictFacts.In_keys_del in Hk.
  - intros k Hk. now apply PyDictFacts.In_keys_del in Hk.
Qed.

(** X7: when the [registered] reply cannot be written, the name has been
    registered all the same; the exception ends the session and closes its
    socket, so the registry now holds an entry for a closed connection, and
    the session reads nothing further. *)
Theorem failed_reply_leaves_entry env m c b n :
  is_closed c b = false ->
  m_type m = Some "register" -> m_name m = Some n -> n <> "" ->
  peer_ok env c = false ->
  let b' := fst (_handle_client env c (Data m) b) in
  snd (_handle_client env c (Data m) b) = [write c (Registered n) false] /\
  is_closed c b' = true /\
  (exists e, PyDict.get n (terminals b') = Some e /\ socket e = c) /\
  In n (PyDict.keys (terminals b')) /\
  (forall env' r, _handle_client env' c r b' = (b', [])).
Proof.
  intros Hc Hty Hn Hne Hpeer b'. subst b'.
  rewrite (handle_client_data env c m b Hc).
  rewrite (register_named env m c b n Hty Hn Hne).
  assert (Hw : write_ok env c b = false)
    by (unfold write_ok; rewrite Hpeer; apply andb_false_r).
  rewrite Hw. simpl fst; simpl snd.
  set (entry := {| socket := c; pid := m_pid m; cwd := _ |}).
  assert (Hget : PyDict.get n (PyDict.set n entry (terminals b)) = Some entry)
    by apply PyDictFacts.get_set_eq.
  split; [reflexivity|]. split; [apply is_closed_close_socket|].
  split; [exists entry; split; [exact Hget | reflexivity]|].
  split; [eapply PyDictFacts.get_Some_keys, Hget|].
  intros env' r. unfold _handle_client.
  now rewrite is_closed_close_socket.
Qed.

Lemma failed_reply_leaves_entry_witness :
  let m := register_msg "C" 103 "/home/c" in
  let b' := fst (_handle_client (down 3) 3 (Data m) two_terminals) in
  snd (_handle_client (down 3) 3 (Data m) two_terminals)
    = [write 3 (Registered "C") false] /\
  is_closed 3 b' = true /\
  (exists e, PyDict.get "C" (terminals b') = Some e /\ socket e = 3) /\
  In "C" (PyDict.keys (terminals b')) /\
  (forall env' r, _handle_client env' 3 r b' = (b', [])).
Proof.
  apply (failed_reply_leaves_entry (down 3) (register_msg "C" 103 "/home/c")
           3 two_terminals "C"); try reflexivity.
  discriminate.
Defined.

(** X8: an [execute] records a callback only when its [callback] is a
    non-empty name and its target is registered; without a callback, or to
    an unknown target, the callback table is left as it is. *)
Theorem execute_without_entry env m c b :
  m_type m = Some "execute" ->
  truthy (m_callback m) && is_registered (m_target m) b = false ->
  completion_callbacks (state_of (_process_message env m c b))
  = completion_callbacks b.
Proof.
  intros Hty Hno.
  destruct (is_registered (m_target m) b) eqn:Hreg.
  - rewrite andb_true_r in Hno.
    destruct (m_target m) as [t|] eqn:Ht; [|discriminate].
    destruct (registered_get t b Hreg) as [e He].
    rewrite (execute_registered env m c b t e Hty Ht He), Hno.
    now destruct (write_ok env (socket e) b).
  - now rewrite (execute_unregistered env m c b Hty Hreg).
Qed.

Lemma execute_without_entry_witness :
  completion_callbacks
    (state_of (_process_message all_up (execute_msg "ghost" "ls" (Some "A")) 1
                 two_terminals))
  = completion_callbacks two_terminals.
Proof.
  apply execute_without_entry; reflexivity.
Defined.

Lemma del_set_fresh {V} k (v : V) d :
  PyDict.get k d = None -> PyDict.del k (PyDict.set k v d) = d.
Proof.
  unfold PyDict.del.
  induction d as [|[k' v'] d IH]; simpl.
  - now rewrite String.eqb_refl.
  - destruct (String.eqb_spec k k') as [->|Hne]; [discriminate|].
    intros Hget. simpl. apply String.eqb_neq in Hne. rewrite Hne. simpl.
    now rewrite IH.
Qed.

Lemma execute_then_complete env1 env2 c1 c2 m1 m2 b t e cb :
  m_type m1 = Some "execute" -> m_target m1 = Some t ->
  m_callback m1 = Some cb -> cb <> "" ->
  PyDict.get t (terminals b) = Some e ->
  write_ok env1 (socket e) b = true ->
  PyDict.get (callback_key (Some t) (m_command m1)) (completion_callbacks b)
    = None ->
  m_type m2 = Some "complete" -> m_terminal m2 = Some t ->
  m_command m2 = m_command m1 ->
  let b1 :=
    with_callbacks
      (PyDict.set (callback_key (Some t) (m_command m1)) cb
         (completion_callbacks b)) b in
  _process_message env1 m1 c1 b
  = (Ok tt, b1, [write (socket e) (Execute (m_command m1) (Some cb)) true]) /\
  _process_message env2 m2 c2 b1
  = (Ok tt, b,
     match PyDict.get cb (terminals b) with
     | Some e' =>
         [write (socket e') (Callback (Some t) (m_command m1) (m_result m2))
            (write_ok env2 (socket e') b)]
     | None => []
     end).
Proof.
  intros Hty1 Ht1 Hcb Hne He Hw Hfresh Hty2 Ht2 Hcmd.
  set (key := callback_key (Some t) (m_command m1)) in *.
  intros b1. split.
  - rewrite (execute_registered env1 m1 c1 b t e Hty1 Ht1 He).
    now rewrite Hw, Hcb, (truthy_Some cb Hne).
  - assert (Hk : PyDict.get (callback_key (m_terminal m2) (m_command m2))
                   (completion_callbacks b1) = Some cb).
    { rewrite Ht2, Hcmd. apply PyDictFacts.get_set_eq. }
    rewrite (completion_found env2 m2 c2 b1 cb Hty2 Hk).
    rewrite Ht2, Hcmd. fold key.
    unfold b1, with_callbacks; simpl.
    rewrite (del_set_fresh key cb _ Hfresh).
    now destruct b.
Qed.

(** X9: an [execute] with a callback, accepted and written to its target,
    followed by the [complete] for the same terminal and command, brings the
    broker back to the state it had before, provided no entry was pending
    under that key; the [complete] writes the callback to the requester if
    it is registered. *)
Theorem execute_complete_round_trip env1 env2 c1 c2 m1 m2 b t e cb :
  m_type m1 = Some "execute" -> m_target m1 = Some t ->
  m_callback m1 = Some cb -> cb <> "" ->
  PyDict.get t (terminals b) = Some e ->
  write_ok env1 (socket e) b = true ->
  PyDict.get (callback_key (Some t) (m_command m1)) (completion_callbacks b)
    = None ->
  m_type m2 = Some "complete" -> m_terminal m2 = Some t ->
  m_command m2 = m_command m1 ->
  let r1 := _process_message env1 m1 c1 b in
  let r2 := _process_message env2 m2 c2 (state_of r1) in
  events_of r1 = [write (socket e) (Execute (m_command m1) (Some cb)) true] /\
  state_of r2 = b /\
  events_of r2 =
    match PyDict.get cb (terminals b) with
    | Some e' =>
        [write (socket e') (Callback (Some t) (m_command m1) (m_result m2))
           (write_ok env2 (socket e') b)]
    | None => []
    end.
Proof.
  intros Hty1 Ht1 Hcb Hne He Hw Hfresh Hty2 Ht2 Hcmd r1 r2. subst r2 r1.
  destruct (execute_then_complete env1 env2 c1 c2 m1 m2 b t e cb
              Hty1 Ht1 Hcb Hne He Hw Hfresh Hty2 Ht2 Hcmd) as [H1 H2].
  rewrite H1. unfold state_of, events_of. simpl fst; simpl snd.
  rewrite H2. repeat split.
Qed.

Lemma execute_complete_round_trip_witness :
  let m1 := execute_msg "B" "echo hi" (Some "A") in
  let m2 := completion_msg "B" "echo hi" (command_result 0 "hi" "") in
  let r1 := _process_message all_up m1 1 two_terminals in
  let r2 := _process_message all_up m2 2 (state_of r1) in
  events_of r1 = [write 2 (Execute (Some "echo hi") (Some "A")) true] /\
  state_of r2 = two_terminals /\
  events_of r2 =
    [write 1 (Callback (Some "B") (Some "echo hi") (command_result 0 "hi" ""))
       true].
Proof.
  apply (execute_complete_round_trip all_up all_up 1 2
           (execute_msg "B" "echo hi" (Some "A"))
           (completion_msg "B" "echo hi" (command_result 0 "hi" ""))
           two_terminals "B"
           {| socket := 2; pid := JInt 102; cwd := JStr "/home/b" |} "A");
    try reflexivity.
  discriminate.
Defined.

Lemma unregistered_stays env m c b n :
  is_registered (Some n) b = false ->
  ~ (m_type m = Some "register" /\ m_name m = Some n) ->
  is_registered (Some n) (state_of (_process_message env m c b)) = false.
Proof.
  intros Hreg Hno. simpl in *. unfold PyDict.contains in *.
  destruct (PyDict.get n (terminals b)) as [e0|] eqn:Hget; [discriminate|].
  destruct (process_message_handled env m c b) as
    [| n' Hty Hn Hne | t e Hty Ht He | t e Hty Ht He | cb Hty Hcb | Hty];
    unfold state_of; simpl; try now rewrite Hget.
  - rewrite PyDictFacts.get_set_neq; [now rewrite Hget|].
    intros ->. auto.
  - destruct (write_ok env (socket e) b); simpl; [now rewrite Hget|].
    destruct (string_dec t n) as [->|Hne].
    + now rewrite PyDictFacts.get_del_eq.
    + rewrite PyDictFacts.get_del_neq by exact Hne. now rewrite Hget.
  - destruct (truthy (m_callback m)), (write_ok env (socket e) b); simpl;
      try (now rewrite Hget);
      (destruct (string_dec t n) as [->|Hne];
       [now rewrite PyDictFacts.get_del_eq
       |rewrite PyDictFacts.get_del_neq by exact Hne; now rewrite Hget]).
Qed.

Lemma unregistered_stays_run ts b n :
  is_registered (Some n) b = false ->
  forallb (fun t => negb (registers n t)) ts = true ->
  is_registered (Some n) (fst (run ts b)) = false.
Proof.
  revert b. induction ts as [|[[env c] r] ts IH]; intros b Hreg Hq; simpl.
  - exact Hreg.
  - simpl in Hq. apply andb_true_iff in Hq as [Hq1 Hq2].
    assert (H1 : is_registered (Some n) (fst (_handle_client env c r b))
                 = false).
    { unfold _handle_client. destruct (is_closed c b); [exact Hreg|].
      destruct r as [m| | |]; try exact Hreg.
      assert (Hno : ~ (m_type m = Some "register" /\ m_name m = Some n)).
      { intros [Hty Hn]. simpl in Hq1. rewrite Hty, Hn in Hq1.
        rewrite !String.eqb_refl in Hq1. discriminate. }
      pose proof (unregistered_stays env m c b n Hreg Hno) as H.
      unfold state_of in H.
      destruct (_process_message env m c b) as [[[u|e] b'] evs]; exact H. }
    destruct (_handle_client env c r b) as [b1 evs1]. simpl in H1.
    specialize (IH b1 H1 Hq2). destruct (run ts b1) as [b2 evs2]. exact IH.
Qed.

(** X10: once a [send] or an [execute] has failed to write to a terminal,
    the terminal is gone from the registry, and it stays out through any
    later turns of any sessions in which the name is not registered again;
    every [send] or [execute] to that name arriving then is dropped without
    any write and without any change of state. *)
Theorem dead_target_is_dropped env m c b t e ts :
  (m_type m = Some "send" \/ m_type m = Some "execute") ->
  m_target m = Some t ->
  PyDict.get t (terminals b) = Some e ->
  write_ok env (socket e) b = false ->
  forallb (fun turn => negb (registers t turn)) ts = true ->
  let b' := fst (run ts (state_of (_process_message env m c b))) in
  ~ In t (PyDict.keys (terminals b')) /\
  (forall env' m' c',
      (m_type m' = Some "send" \/ m_type m' = Some "execute") ->
      m_target m' = Some t ->
      _process_message env' m' c' b' = (Ok tt, b', [])).
Proof.
  intros Hty Ht He Hw Hq b'.
  assert (Hgone0 : is_registered (Some t)
                     (state_of (_process_message env m c b)) = false).
  { destruct Hty as [Hty|Hty].
    - apply (send_write_failure_removes_target env m c b t e Hty Ht He Hw).
    - apply (execute_write_failure_removes_target env m c b t e Hty Ht He Hw). }
  assert (Hgone : is_registered (Some t) b' = false)
    by exact (unregistered_stays_run ts _ t Hgone0 Hq).
  split.
  - intros Hin. apply PyDictFacts.contains_keys in Hin.
    simpl in Hgone. congruence.
  - intros env' m' c' [Hty'|Hty'] Ht'.
    + apply send_unregistered; [exact Hty' | now rewrite Ht'].
    + apply execute_unregistered; [exact Hty' | now rewrite Ht'].
Qed.

Lemma dead_target_is_dropped_witness :
  let m := send_msg "B" (JStr "ping") in
  let ts := [(all_up, 3, Data (register_msg "C" 103 "/home/c"));
             (all_up, 2, PeerClosed);
             (all_up, 3, Data (execute_msg "A" "ls" (Some "C")));
             (all_up, 1, Data list_msg)] in
  let b' := fst (run ts (state_of (_process_message (down 2) m 1
                                     two_terminals))) in
  ~ In "B" (PyDict.keys (terminals b')) /\
  (forall env' m' c',
      (m_type m' = Some "send" \/ m_type m' = Some "execute") ->
      m_target m' = Some "B" ->
      _process_message env' m' c' b' = (Ok tt, b', [])).
Proof.
  apply (dead_target_is_dropped (down 2) (send_msg "B" (JStr "ping")) 1
           two_terminals "B"
           {| socket := 2; pid := JInt 102; cwd := JStr "/home/b" |}
           [(all_up, 3, Data (register_msg "C" 103 "/home/c"));
            (all_up, 2, PeerClosed);
            (all_up, 3, Data (execute_msg "A" "ls" (Some "C")));
            (all_up, 1, Data list_msg)]);
    try reflexivity.
  left; reflexivity.
Defined.

(** X11: a callback is routed by name at the time of the completion, not to
    the connection that asked for it: if the callback name is registered, or
    registered again, after the [execute], the [complete] writes to the
    connection that holds the name then. *)
Theorem callback_goes_to_current_holder env1 env2 c1 c2 m1 m2 b cb :
  PyDict.get (callback_key (m_terminal m2) (m_command m2))
    (completion_callbacks b) = Some cb ->
  cb <> "" ->
  m_type m1 = Some "register" -> m_name m1 = Some cb ->
  m_type m2 = Some "complete" ->
  let b1 := state_of (_process_message env1 m1 c1 b) in
  events_of (_process_message env2 m2 c2 b1)
  = [write c1 (Callback (m_terminal m2) (m_command m2) (m_result m2))
       (write_ok env2 c1 b1)].
Proof.
  intros Hk Hne Hty1 Hn Hty2 b1. subst b1.
  rewrite (register_named env1 m1 c1 b cb Hty1 Hn Hne).
  change (state_of (?r, ?s, ?evs)) with s.
  set (b1 := with_terminals _ b).
  assert (Hk1 : PyDict.get (callback_key (m_terminal m2) (m_command m2))
                  (completion_callbacks b1) = Some cb) by exact Hk.
  rewrite (completion_found env2 m2 c2 b1 cb Hty2 Hk1).
  unfold events_of; simpl. now rewrite PyDictFacts.get_set_eq.
Qed.

Lemma callback_goes_to_current_holder_witness :
  let m1 := register_msg "A" 201 "/tmp" in
  let m2 := completion_msg "B" "echo hi" (command_result 0 "hi" "") in
  let b1 := state_of (_process_message all_up m1 7 pending_callback) in
  events_of (_process_message all_up m2 2 b1)
  = [write 7 (Callback (Some "B") (Some "echo hi") (command_result 0 "hi" ""))
       (write_ok all_up 7 b1)].
Proof.
  apply (callback_goes_to_current_holder all_up all_up 7 2
           (register_msg "A" 201 "/tmp")
           (completion_msg "B" "echo hi" (command_result 0 "hi" ""))
           pending_callback "A"); try reflexivity.
  discriminate.
Defined.

(** X12: a callback entry has no expiry: it stays in the table, unchanged,
    through any run of turns of any sessions (messages, disconnections, read
    errors) in which no [complete] carries its key and no [execute]
    re-issues it. *)
Theorem callback_entry_never_expires ts b key cb :
  PyDict.get key (completion_callbacks b) = Some cb ->
  forallb (quiet key) ts = true ->
  PyDict.get key (completion_callbacks (fst (run ts b))) = Some cb.
Proof.
  intros Hget Hq. destruct (quiet_run ts b key Hq) as [H _]. congruence.
Qed.

Lemma callback_entry_never_expires_witness :
  PyDict.get "B:echo hi"
    (completion_callbacks
       (fst (run [(all_up, 1, PeerClosed);
                  (all_up, 2, Data (send_msg "A" (JStr "done?")));
                  (all_up, 2, RecvError);
                  (all_up, 3, Data list_msg)] pending_callback)))
  = Some "A".
Proof.
  apply callback_entry_never_expires; reflexivity.
Defined.

(** ** The terminal side *)

Module PT := PipelineTerminal.



(** X14: a callback whose result is not a JSON object (a [complete] sent
    without a result, say) makes [_handle_callback] raise after its first two
    lines; the exception leaves [_handle_message] and ends the listener
    loop of the terminal. *)
Theorem callback_without_result_stops_listener env self fr cmd res :
  (forall l, res <> JDict l) ->
  PT.running self = true ->
  PT._handle_message env self (Callback fr cmd res)
  = (PT.Failed PT.AttributeError,
     [PT.Print (PT.CallbackFrom fr); PT.Print (PT.CommandLine cmd)]) /\
  PT._listen_for_messages env self (PT.Inbound (Callback fr cmd res))
  = (false, [PT.Print (PT.CallbackFrom fr); PT.Print (PT.CommandLine cmd)]).
Proof.
  intros Hres Hrun.
  assert (H : PT._handle_message env self (Callback fr cmd res)
              = (PT.Failed PT.AttributeError,
                 [PT.Print (PT.CallbackFrom fr);
                  PT.Print (PT.CommandLine cmd)])).
  { unfold PT._handle_message, PT._handle_callback. simpl.
    destruct res; try reflexivity. now destruct (Hres l). }
  split; [exact H|].
  unfold PT._listen_for_messages. now rewrite Hrun, H.
Qed.

Lemma callback_without_result_stops_listener_witness :
  let self := {| PT.name := "A"; PT.port := 9999;
                 PT.socket := Some PT.Connected; PT.running := true |} in
  let env := {| PT.subprocess_run := fun _ => None; PT.connect_ok := true;
                PT.send_ok := true; PT.os_getpid := 101;
                PT.os_getcwd := "/home/a" |} in
  PT._handle_message env self (Callback (Some "B") (Some "ls") JNull)
  = (PT.Failed PT.AttributeError,
     [PT.Print (PT.CallbackFrom (Some "B"));
      PT.Print (PT.CommandLine (Some "ls"))]) /\
  PT._listen_for_messages env self
    (PT.Inbound (Callback (Some "B") (Some "ls") JNull))
  = (false, [PT.Print (PT.CallbackFrom (Some "B"));
             PT.Print (PT.CommandLine (Some "ls"))]).
Proof.
  apply callback_without_result_stops_listener;
    [intros l; discriminate | reflexivity].
Defined.




(** X17: what [connect] registers.  When the connection and the first
    write go through, [connect] returns [True] and has sent one [register]
    message; for a terminal with a non-empty name the broker files the
    connection under that name with the terminal's own pid and working
    directory and writes the reply.  For a terminal with the empty name
    [connect] returns [True] all the same, and the broker registers nothing
    and replies nothing. *)
Theorem connect_registers_name env self unnamed benv c b :
  PT.connect_ok env = true -> PT.send_ok env = true ->
  PT.name self <> "" -> PT.name unnamed = "" ->
  let m := register_msg (PT.name self) (PT.os_getpid env) (PT.os_getcwd env) in
  let m0 := register_msg "" (PT.os_getpid env) (PT.os_getcwd env) in
  let r := _process_message benv m c b in
  (fst (fst (PT.connect env self)) = true /\
   PT.socket (snd (fst (PT.connect env self))) = Some PT.Connected /\
   snd (PT.connect env self) = [PT.Send m] /\
   PyDict.get (PT.name self) (terminals (state_of r))
   = Some {| socket := c; pid := JInt (PT.os_getpid env);
             cwd := JStr (PT.os_getcwd env) |} /\
   events_of r = [write c (Registered (PT.name self)) (write_ok benv c b)]) /\
  (fst (fst (PT.connect env unnamed)) = true /\
   snd (PT.connect env unnamed) = [PT.Send m0] /\
   _process_message benv m0 c b = (Ok tt, b, [])).
Proof.
  intros Hc Hs Hne Hempty m m0 r.
  unfold PT.connect, PT.socket_send. rewrite Hc. simpl. rewrite Hs. simpl.
  split.
  - split; [reflexivity|]. split; [reflexivity|]. split; [reflexivity|].
    subst r.
    rewrite (register_named benv m c b (PT.name self) eq_refl eq_refl Hne).
    unfold state_of, events_of; simpl. split; [|reflexivity].
    apply PyDictFacts.get_set_eq.
  - split; [reflexivity|]. split; [now rewrite Hempty|].
    apply register_unnamed; reflexivity.
Qed.

Lemma connect_registers_name_witness :
  let self := PT.init "C" 9999 in
  let unnamed := PT.init "" 9999 in
  let env := {| PT.subprocess_run := fun _ => None; PT.connect_ok := true;
                PT.send_ok := true; PT.os_getpid := 77;
                PT.os_getcwd := "/root" |} in
  let m := register_msg "C" 77 "/root" in
  let m0 := register_msg "" 77 "/root" in
  let r := _process_message all_up m 4 two_terminals in
  (fst (fst (PT.connect env self)) = true /\
   PT.socket (snd (fst (PT.connect env self))) = Some PT.Connected /\
   snd (PT.connect env self) = [PT.Send m] /\
   PyDict.get "C" (terminals (state_of r))
   = Some {| socket := 4; pid := JInt 77; cwd := JStr "/root" |} /\
   events_of r = [write 4 (Registered "C") (write_ok all_up 4 two_terminals)]) /\
  (fst (fst (PT.connect env unnamed)) = true /\
   snd (PT.connect env unnamed) = [PT.Send m0] /\
   _process_message all_up m0 4 two_terminals = (Ok tt, two_terminals, [])).
Proof.
  apply (connect_registers_name
           {| PT.subprocess_run := fun _ => None; PT.connect_ok := true;
              PT.send_ok := true; PT.os_getpid := 77;
              PT.os_getcwd := "/root" |}
           (PT.init "C" 9999) (PT.init "" 9999) all_up 4 two_terminals);
    try reflexivity.
  discriminate.
Defined.

(** X18: before [connect] the three sending methods do nothing; after a
    [connect] that failed to reach the broker the socket object is already
    stored, so [connect] has returned [False] with one line printed and the
    same methods raise instead of doing nothing. *)
Theorem failed_connect_arms_socket env self :
  PT.socket self = None ->
  PT.connect_ok env = false ->
  let self' := snd (fst (PT.connect env self)) in
  (forall env' target content command callback,
      PT.send_to_terminal env' self target content = (PT.Done tt, []) /\
      PT.execute_in_terminal env' self target command callback
      = (PT.Done tt, []) /\
      PT.list_terminals env' self = (PT.Done tt, [])) /\
  fst (fst (PT.connect env self)) = false /\
  snd (PT.connect env self) = [PT.Print PT.FailedToConnect] /\
  PT.name self' = PT.name self /\
  (forall env' target content command callback,
      PT.send_to_terminal env' self' target content
      = (PT.Failed PT.OSError, []) /\
      PT.execute_in_terminal env' self' target command callback
      = (PT.Failed PT.OSError, []) /\
      PT.list_terminals env' self' = (PT.Failed PT.OSError, [])).
Proof.
  intros Hnone Hc self'. subst self'.
  unfold PT.connect. rewrite Hc. simpl.
  unfold PT.send_to_terminal, PT.execute_in_terminal, PT.list_terminals,
    PT.socket_send. rewrite Hnone. simpl.
  repeat split.
Qed.

Lemma failed_connect_arms_socket_witness :
  let self := PT.init "A" 9999 in
  let env := {| PT.subprocess_run := fun _ => None; PT.connect_ok := false;
                PT.send_ok := true; PT.os_getpid := 101;
                PT.os_getcwd := "/home/a" |} in
  let self' := snd (fst (PT.connect env self)) in
  (forall env' target content command callback,
      PT.send_to_terminal env' self target content = (PT.Done tt, []) /\
      PT.execute_in_terminal env' self target command callback
      = (PT.Done tt, []) /\
      PT.list_terminals env' self = (PT.Done tt, [])) /\
  fst (fst (PT.connect env self)) = false /\
  snd (PT.connect env self) = [PT.Print PT.FailedToConnect] /\
  PT.name self' = PT.name self /\
  (forall env' target content command callback,
      PT.send_to_terminal env' self' target content
      = (PT.Failed PT.OSError, []) /\
      PT.execute_in_terminal env' self' target command callback
      = (PT.Failed PT.OSError, []) /\
      PT.list_terminals env' self' = (PT.Failed PT.OSError, [])).
Proof.
  apply (failed_connect_arms_socket
           {| PT.subprocess_run := fun _ => None; PT.connect_ok := false;
              PT.send_ok := true; PT.os_getpid := 101;
              PT.os_getcwd := "/home/a" |} (PT.init "A" 9999));
    reflexivity.
Defined.
